(** * Domain type definitions of the WebLogic deploy tooling

    A shallow embedding of [wlsdeploy/tool/create/domain_typedef.py]
    (class [DomainTypedef]) and the properties of its version resolution,
    deferred path resolution and discover filters.

    Conventions of the embedding:
    - a Python dictionary used as a table (the [versions] table, the
      discover filters, the legacy [system-elements]) is a [gmap];
    - the version-specific definition, a JSON object with a fixed set of
      typed keys, is a record of optional fields: [None] is an absent key,
      [k in d] is [is_Some], [d[k]] on an absent key raises [KeyError];
    - a method of the class is a computation in the monad [M]: it reads and
      writes the fields of the object and either returns or raises; what
      was written before a [raise] stays written;
    - the collaborators of the class (the WebLogic helper, the model
      context, the regular expression engine, the enumerations, the order
      in which a dictionary is iterated) are parameters;
    - logging is left out: it has no influence on control flow. *)

From Stdlib Require Import Ascii String.
From stdpp Require Import gmap strings list fin_maps.

Open Scope string_scope.

(** ** Module constants *)

Definition CREATE_DOMAIN : string := "createDomain".
Definition DISCOVER_DOMAIN : string := "discoverDomain".
Definition NOT_SUPPORTED : string := "NOT_SUPPORTED".

(** ** Exceptions *)

Inductive ExitCode := ARG_VALIDATION_ERROR.

(** The exceptions the class lets escape.  The first three are built by
    [exception_helper] from a message key and its arguments; [KeyError] is
    Python's own, raised by [d[k]] when [k] is not a key of [d]; [ReError]
    is raised by [re.match] on a pattern that does not compile. *)
Inductive PyException :=
| ClaException (exit_code : ExitCode) (key : string) (args : list string)
| CreateException (key : string) (args : list string)
| DiscoverException (key : string) (args : list string)
| KeyError (key : string)
| ReError (pattern : string).

(** The specification's [ConfigError]: an error of the tool about the
    configuration, as opposed to an error of the Python runtime. *)
Definition is_ConfigError (e : PyException) : bool :=
  match e with
  | ClaException _ _ _ | CreateException _ _ | DiscoverException _ _ => true
  | KeyError _ | ReError _ => false
  end.

Inductive Outcome (A : Type) :=
| Return (a : A)
| Raise (e : PyException).
Arguments Return {A} a.
Arguments Raise {A} e.

Definition fails_with_ConfigError {A} (o : Outcome A) : Prop :=
  ∃ e, o = Raise e ∧ is_ConfigError e = true.

(** ** Collaborators *)

(** [WebLogicHelper]: the version oracle. *)
Record WebLogicHelper := {
  get_actual_weblogic_version : string;
  get_weblogic_version : string;
  get_next_higher_order_version_number : string → option string;
  is_set_server_groups_supported : bool;
  is_topology_profile_supported : bool
}.

(** The model context, of which the class uses [replace_token_string]. *)
Record ModelContext := {
  replace_token_string : string → string
}.

(** The alias location, of which the class uses [get_folder_path]. *)
Record Location := {
  get_folder_path : string
}.

(** ** Version resolution *)

(** A computation of the constructor either returns, raises, or (the
    version search only) does not come back within the given number of loop
    iterations, which is [None]. *)
Definition and_then {A B} (x : option (Outcome A)) (k : A → option (Outcome B))
    : option (Outcome B) :=
  match x with
  | None => None
  | Some (Raise e) => Some (Raise e)
  | Some (Return a) => k a
  end.

Section VersionResolution.
Variable wls_helper : WebLogicHelper.
Variable _domain_type _domain_typedef_filename : string.

(** The [while new_version is not None] loop of [__match_version_typedef]:
    the value of [result] when the loop is left, or [None] when [fuel]
    iterations did not leave it. *)
Fixpoint __match_version_typedef_while (fuel : nat)
    (versions_dict : gmap string string) (new_version : option string)
    : option (option string) :=
  match new_version with
  | None => Some None
  | Some v =>
      match versions_dict !! v with
      | Some entry => Some (Some entry)
      | None =>
          match fuel with
          | O => None
          | S fuel' =>
              __match_version_typedef_while fuel' versions_dict
                (get_next_higher_order_version_number wls_helper v)
          end
      end
  end.

Definition __match_version_typedef (fuel : nat)
    (versions_dict : gmap string string) : option (Outcome string) :=
  if decide (size versions_dict = 0) then
    Some (Raise (ClaException ARG_VALIDATION_ERROR "WLSDPLY-12307"
                   [_domain_type; _domain_typedef_filename]))
  else
    let wls_version := get_actual_weblogic_version wls_helper in
    and_then
      match versions_dict !! wls_version with
      | Some entry => Some (Return entry)
      | None =>
          match __match_version_typedef_while fuel versions_dict
                  (get_next_higher_order_version_number wls_helper wls_version) with
          | None => None
          | Some None =>
              Some (Raise (ClaException ARG_VALIDATION_ERROR "WLSDPLY-12309"
                             [_domain_type; _domain_typedef_filename; wls_version]))
          | Some (Some entry) => Some (Return entry)
          end
      end
      (λ result,
         if decide (result = NOT_SUPPORTED) then
           Some (Raise (ClaException ARG_VALIDATION_ERROR "WLSDPLY-12313"
                          [_domain_type; wls_version]))
         else Some (Return result)).
End VersionResolution.

(** ** The typedef document and the object *)

(** A version-specific definition: one value of the [definitions] table,
    the dictionary the class keeps in [self._domain_typedef]. *)
Record DefinitionRecord := {
  baseTemplate : option string;
  extensionTemplates : option (list string);
  customExtensionTemplates : option (list string);
  serverGroupsToTarget : option (list string);
  dynamicClusterServerGroupsToTarget : option (list string);
  rcuSchemas : option (list string);
  targeting : option string;
  postCreateDomainScript : option (gmap string string)
}.

(** The parsed typedef file, [self._domain_typedefs_dict].  It is read
    during construction only. *)
Record TypedefDocument := {
  versions : option (gmap string string);
  definitions : option (gmap string DefinitionRecord);
  topologyProfile : option string;
  discover_filters : option (gmap string (list string));
  system_elements : option (gmap string (list string))
}.

(** What [JsonToPython(...).parse()] does: it returns the document or
    raises one of the two exceptions the constructor catches. *)
Inductive ParseOutcome :=
| Parsed (doc : TypedefDocument)
| IllegalArgumentException (localized_message : string)
| JsonException (localized_message : string).

(** The fields of a [DomainTypedef] object. *)
Record DomainTypedef := {
  _program_name : string;
  _domain_type : string;
  wls_helper : WebLogicHelper;
  _domain_typedef_filename : string;
  _version_typedef_name : string;
  _paths_resolved : bool;
  _model_context : option ModelContext;
  _domain_typedef : DefinitionRecord;
  _targeting_type : option string;
  _post_create_domain_script_dict : option (gmap string string);
  _discover_filters : gmap string (list string);
  _topology_profile : option string
}.

(** Assignments to the fields that change after construction. *)
Definition with_model_context (c : option ModelContext) (self : DomainTypedef) :=
  {| _program_name := _program_name self;
     _domain_type := _domain_type self;
     wls_helper := wls_helper self;
     _domain_typedef_filename := _domain_typedef_filename self;
     _version_typedef_name := _version_typedef_name self;
     _paths_resolved := _paths_resolved self;
     _model_context := c;
     _domain_typedef := _domain_typedef self;
     _targeting_type := _targeting_type self;
     _post_create_domain_script_dict := _post_create_domain_script_dict self;
     _discover_filters := _discover_filters self;
     _topology_profile := _topology_profile self |}.

Definition with_resolved (d : DefinitionRecord) (self : DomainTypedef) :=
  {| _program_name := _program_name self;
     _domain_type := _domain_type self;
     wls_helper := wls_helper self;
     _domain_typedef_filename := _domain_typedef_filename self;
     _version_typedef_name := _version_typedef_name self;
     _paths_resolved := true;
     _model_context := _model_context self;
     _domain_typedef := d;
     _targeting_type := _targeting_type self;
     _post_create_domain_script_dict := _post_create_domain_script_dict self;
     _discover_filters := _discover_filters self;
     _topology_profile := _topology_profile self |}.

(** ** The monad of methods *)

Definition M (A : Type) : Type := DomainTypedef → Outcome A * DomainTypedef.

Definition ret {A} (a : A) : M A := λ self, (Return a, self).
Definition raise {A} (e : PyException) : M A := λ self, (Raise e, self).
Definition bind {A B} (m : M A) (k : A → M B) : M B :=
  λ self,
    match m self with
    | (Return a, self') => k a self'
    | (Raise e, self') => (Raise e, self')
    end.
Definition get_self : M DomainTypedef := λ self, (Return self, self).
Definition put_self (self' : DomainTypedef) : M unit := λ _, (Return tt, self').

Declare Scope method_scope.
Delimit Scope method_scope with method.
Notation "'let!' x ':=' m 'in' k" := (bind m (λ x, k))
  (at level 10, x name, m at level 100, k at level 200) : method_scope.
Notation "m ';;;' k" := (bind m (λ _, k))
  (at level 100, k at level 200, right associativity) : method_scope.
Open Scope method_scope.

(** [d[key]] for a key that may be absent. *)
Definition getitem {A} (key : string) (value : option A) : M A :=
  match value with
  | Some a => ret a
  | None => raise (KeyError key)
  end.

Definition cla_exception (key : string) (args : list string) : PyException :=
  ClaException ARG_VALIDATION_ERROR key args.

(** ** Path resolution and the getters *)

(** [__resolve_paths]: nothing is written before either [raise], and all
    the writes of the remaining path happen together. *)
Definition __resolve_paths : M unit :=
  λ self,
    if _paths_resolved self then (Return tt, self)
    else
      match _model_context self with
      | None => (Raise (cla_exception "WLSDPLY-12302" []), self)
      | Some model_context =>
          let d := _domain_typedef self in
          match baseTemplate d with
          | None =>
              (Raise (cla_exception "WLSDPLY-12303"
                        [_domain_type self; _domain_typedef_filename self;
                         _version_typedef_name self]), self)
          | Some base_template =>
              let resolved_list (templates : option (list string)) :=
                match templates with
                | Some extension_templates =>
                    map (replace_token_string model_context) extension_templates
                | None => []
                end in
              let or_empty (l : option (list string)) :=
                match l with Some l => l | None => [] end in
              (Return tt,
               with_resolved
                 {| baseTemplate :=
                      Some (replace_token_string model_context base_template);
                    extensionTemplates :=
                      Some (resolved_list (extensionTemplates d));
                    customExtensionTemplates :=
                      Some (resolved_list (customExtensionTemplates d));
                    serverGroupsToTarget :=
                      Some (or_empty (serverGroupsToTarget d));
                    dynamicClusterServerGroupsToTarget :=
                      Some (or_empty (dynamicClusterServerGroupsToTarget d));
                    rcuSchemas := Some (or_empty (rcuSchemas d));
                    targeting := targeting d;
                    postCreateDomainScript := postCreateDomainScript d |}
                 self)
          end
      end.

Definition set_model_context (model_context : ModelContext) : M unit :=
  let! self := get_self in
  match _model_context self with
  | None =>
      put_self (with_model_context (Some model_context) self);;;
      __resolve_paths
  | Some _ => ret tt
  end.

Definition get_domain_type : M string :=
  let! self := get_self in ret (_domain_type self).

Definition get_topology_profile : M (option string) :=
  let! self := get_self in ret (_topology_profile self).

Definition get_base_template : M string :=
  __resolve_paths;;;
  let! self := get_self in
  getitem "baseTemplate" (baseTemplate (_domain_typedef self)).

Definition get_extension_templates : M (list string) :=
  __resolve_paths;;;
  let! self := get_self in
  getitem "extensionTemplates" (extensionTemplates (_domain_typedef self)).

Definition get_custom_extension_templates : M (list string) :=
  __resolve_paths;;;
  let! self := get_self in
  getitem "customExtensionTemplates"
    (customExtensionTemplates (_domain_typedef self)).

Definition get_server_groups_to_target : M (list string) :=
  __resolve_paths;;;
  let! self := get_self in
  getitem "serverGroupsToTarget" (serverGroupsToTarget (_domain_typedef self)).

Definition get_dynamic_cluster_server_groups : M (list string) :=
  __resolve_paths;;;
  let! self := get_self in
  getitem "dynamicClusterServerGroupsToTarget"
    (dynamicClusterServerGroupsToTarget (_domain_typedef self)).

Definition has_extension_templates : M bool :=
  let! ets := get_extension_templates in
  ret (bool_decide (0 < length ets)).

(** [get_rcu_schemas] and [requires_rcu] do not call [__resolve_paths]. *)
Definition get_rcu_schemas : M (list string) :=
  let! self := get_self in
  getitem "rcuSchemas" (rcuSchemas (_domain_typedef self)).

Definition requires_rcu : M bool :=
  let! self := get_self in
  match rcuSchemas (_domain_typedef self) with
  | Some schemas => ret (bool_decide (0 < length schemas))
  | None => ret false
  end.

Definition get_targeting : M (option string) :=
  let! self := get_self in ret (_targeting_type self).

(** ** Methods that match regular expressions *)

Definition JRF_TEMPLATE_REGEX : string :=
  "^(.*jrf_template[0-9._]*\.jar)|^(Oracle JRF)$".
Definition RESTRICTED_JRF_TEMPLATE_REGEX : string := "^(Oracle Restricted JRF)$".
Definition JRF_SERVER_GROUP : string := "JRF-MAN-SVR".

Section Matching.
(** [re_match pattern s] is [Some true] when [re.match(pattern, s)]
    returns a match object, [Some false] when it returns [None], and
    [None] when the pattern does not compile and [re.match] raises. *)
Variable re_match : string → string → option bool.

(** [True] and [False] are [Some true] and [Some false]; a call that
    falls off the end of the method returns Python's [None].  Both paths
    of the loop body return, so the body runs for the first template only. *)
Definition is_restricted_jrf_domain_type : M (option bool) :=
  let! templates := get_extension_templates in
  match templates with
  | [] => ret None
  | template :: _ =>
      match re_match RESTRICTED_JRF_TEMPLATE_REGEX template with
      | None => raise (ReError RESTRICTED_JRF_TEMPLATE_REGEX)
      | Some true => ret (Some true)
      | Some false => ret (Some false)
      end
  end.

(** [for x in l: if re.match(pattern, x): return True] *)
Fixpoint any_template_matches (pattern : string) (l : list string)
    : Outcome bool :=
  match l with
  | [] => Return false
  | template :: rest =>
      match re_match pattern template with
      | None => Raise (ReError pattern)
      | Some true => Return true
      | Some false => any_template_matches pattern rest
      end
  end.

Definition is_jrf_domain_type : M bool :=
  let! restricted := is_restricted_jrf_domain_type in
  match restricted with
  | Some true => ret false
  | Some false | None =>
      let! templates := get_extension_templates in
      match any_template_matches JRF_TEMPLATE_REGEX templates with
      | Raise e => raise e
      | Return true => ret true
      | Return false =>
          let! groups := get_server_groups_to_target in
          if decide (JRF_SERVER_GROUP ∈ groups) then ret true else ret false
      end
  end.

(** The loop of [is_filtered] over the patterns of one key. *)
Fixpoint is_filtered_patterns (discover_filters : list string) (name : string)
    : Outcome bool :=
  match discover_filters with
  | [] => Return false
  | discover_filter :: rest =>
      match re_match discover_filter name with
      | None => Raise (ReError discover_filter)
      | Some true => Return true
      | Some false => is_filtered_patterns rest name
      end
  end.

Definition is_filtered (location : Location) (name : option string) : M bool :=
  let! self := get_self in
  let key := get_folder_path location in
  match _discover_filters self !! key with
  | Some discover_filters =>
      match name with
      | None => ret true
      | Some name =>
          match is_filtered_patterns discover_filters name with
          | Raise e => raise e
          | Return b => ret b
          end
      end
  | None => ret false
  end.
End Matching.

(** ** The post-create script *)

Definition get_post_create_domain_script (IS_WINDOWS : bool) : M (option string) :=
  let! self := get_self in
  match _post_create_domain_script_dict self with
  | None => ret None
  | Some script_dict =>
      match _model_context self with
      | None => raise (cla_exception "WLSDPLY-12302" [])
      | Some model_context =>
          let script_key := if IS_WINDOWS then "windowsScript" else "unixScript" in
          match script_dict !! script_key with
          | Some script => ret (Some (replace_token_string model_context script))
          | None => ret None
          end
      end
  end.

(** ** Legacy filter translation *)

Definition __key_mapping_table : gmap string string :=
  list_to_map
    [ ("apps", "/Application");
      ("coherence-clusters", "/CoherenceClusterSystemResource");
      ("datasources", "/JDBCSystemResource");
      ("file-stores", "/FileStore");
      ("jms", "/JMSSystemResource");
      ("jms-server", "/JMSServer");
      ("shared-libraries", "/Library");
      ("shutdown-classes", "/ShutdownClass");
      ("startup-classes", "/StartupClass");
      ("wldf", "/WLDFSystemResource") ].

Section Translation.
Variable _program_name _domain_typedef_filename : string.

Definition _convert_system_elements_key_name (key : string) : Outcome string :=
  match __key_mapping_table !! key with
  | Some new_key => Return new_key
  | None =>
      if decide (_program_name = DISCOVER_DOMAIN) then
        Raise (DiscoverException "WLSDPLY-12316" [key; _domain_typedef_filename])
      else
        Raise (CreateException "WLSDPLY-12316" [key; _domain_typedef_filename])
  end.

(** The loop of [_translate_system_elements] over the pairs that
    [system_elements_dict.iteritems()] yields, in the order it yields
    them, with [discover_filters_dict] as the accumulator. *)
Fixpoint _translate_system_elements_loop
    (items : list (string * list string))
    (discover_filters_dict : gmap string (list string))
    : Outcome (gmap string (list string)) :=
  match items with
  | [] => Return discover_filters_dict
  | (key, value) :: rest =>
      match _convert_system_elements_key_name key with
      | Raise e => Raise e
      | Return new_key =>
          _translate_system_elements_loop rest
            (<[new_key := value]> discover_filters_dict)
      end
  end.

Definition _translate_system_elements (items : list (string * list string))
    : Outcome (gmap string (list string)) :=
  _translate_system_elements_loop items ∅.
End Translation.

(** ** Construction *)

Section Construction.
(** [path_utils.find_config_path(os.path.join('typedefs', file_name))] *)
Variable find_typedef_path : string → string.
(** [JsonToPython(filename).parse()] *)
Variable json_parse : string → ParseOutcome.
(** [WebLogicHelper(self._logger)] *)
Variable helper : WebLogicHelper.
(** The names of the two enumerations. *)
Variable TargetingType TopologyProfile : list string.
(** The order in which a dictionary yields its items. *)
Variable iteritems : gmap string (list string) → list (string * list string).

Definition __domain_typedef_extension : string := ".json".

Definition __get_version_typedef (fuel : nat)
    (domain_type filename : string) (doc : TypedefDocument)
    : option (Outcome (string * DefinitionRecord)) :=
  match versions doc with
  | None => Some (Raise (cla_exception "WLSDPLY-12304" [domain_type; filename]))
  | Some versions_dict =>
      match definitions doc with
      | None =>
          Some (Raise (cla_exception "WLSDPLY-12305" [domain_type; filename]))
      | Some definitions_dict =>
          and_then
            (__match_version_typedef helper domain_type filename fuel versions_dict)
            (λ version_typedef_name,
               match definitions_dict !! version_typedef_name with
               | Some result => Some (Return (version_typedef_name, result))
               | None =>
                   Some (Raise (cla_exception "WLSDPLY-12306"
                                  [domain_type; filename; version_typedef_name]))
               end)
      end
  end.

Definition _resolve_targeting_type (filename : string)
    (domain_typedef : DefinitionRecord) : Outcome (option string) :=
  match targeting domain_typedef with
  | None => Return None
  | Some targeting_text =>
      if is_set_server_groups_supported helper then
        Raise (cla_exception "WLSDPLY-12311"
                 [targeting_text; filename; get_weblogic_version helper])
      else if decide (targeting_text ∈ TargetingType) then
        Return (Some targeting_text)
      else
        Raise (cla_exception "WLSDPLY-12312" [targeting_text; filename])
  end.

Definition _resolve_topology_profile (filename : string)
    (doc : TypedefDocument) : Outcome (option string) :=
  match topologyProfile doc with
  | None => Return None
  | Some topology_profile =>
      if negb (is_topology_profile_supported helper) then
        Raise (cla_exception "WLSDPLY-12314"
                 [topology_profile; filename; get_weblogic_version helper])
      else if decide (topology_profile ∈ TopologyProfile) then
        Return (Some topology_profile)
      else
        Raise (cla_exception "WLSDPLY-12315" [topology_profile; filename])
  end.

Definition __init__ (fuel : nat) (program_name domain_type : string)
    : option (Outcome DomainTypedef) :=
  let file_name := domain_type ++ __domain_typedef_extension in
  let filename := find_typedef_path file_name in
  match json_parse filename with
  | IllegalArgumentException message =>
      Some (Raise (cla_exception "WLSDPLY-12300"
                     [program_name; domain_type; filename; message]))
  | JsonException message =>
      Some (Raise (cla_exception "WLSDPLY-12301"
                     [program_name; domain_type; filename; message]))
  | Parsed doc =>
      and_then (__get_version_typedef fuel domain_type filename doc)
        (λ '(version_typedef_name, domain_typedef),
      and_then (Some (_resolve_targeting_type filename domain_typedef))
        (λ targeting_type,
      and_then
        (Some (match discover_filters doc with
               | Some filters => Return filters
               | None =>
                   match system_elements doc with
                   | Some elements =>
                       _translate_system_elements program_name filename
                         (iteritems elements)
                   | None => Return ∅
                   end
               end))
        (λ filters,
      and_then (Some (_resolve_topology_profile filename doc))
        (λ topology_profile,
           Some (Return
             {| _program_name := program_name;
                _domain_type := domain_type;
                wls_helper := helper;
                _domain_typedef_filename := filename;
                _version_typedef_name := version_typedef_name;
                _paths_resolved := false;
                _model_context := None;
                _domain_typedef := domain_typedef;
                _targeting_type := targeting_type;
                _post_create_domain_script_dict :=
                  postCreateDomainScript domain_typedef;
                _discover_filters := filters;
                _topology_profile := topology_profile |})))))
  end.
End Construction.

(** ** The life of an object *)

(** What a method call returns or raises, and the object it leaves. *)
Definition outcome_of {A} (m : M A) (self : DomainTypedef) : Outcome A := (m self).1.
Definition after {A} (m : M A) (self : DomainTypedef) : DomainTypedef := (m self).2.

Section Lifecycle.
Variable find_typedef_path : string → string.
Variable json_parse : string → ParseOutcome.
Variable helper : WebLogicHelper.
Variable TargetingType TopologyProfile : list string.
Variable iteritems : gmap string (list string) → list (string * list string).
Variable re_match : string → string → option bool.
Variable IS_WINDOWS : bool.

(** The public methods of the class. *)
Inductive public_method : ∀ {A : Type}, M A → Prop :=
| call_set_model_context model_context :
    public_method (set_model_context model_context)
| call_get_domain_type : public_method get_domain_type
| call_get_topology_profile : public_method get_topology_profile
| call_is_jrf_domain_type : public_method (is_jrf_domain_type re_match)
| call_is_restricted_jrf_domain_type :
    public_method (is_restricted_jrf_domain_type re_match)
| call_get_base_template : public_method get_base_template
| call_has_extension_templates : public_method has_extension_templates
| call_get_extension_templates : public_method get_extension_templates
| call_get_custom_extension_templates :
    public_method get_custom_extension_templates
| call_get_server_groups_to_target : public_method get_server_groups_to_target
| call_get_dynamic_cluster_server_groups :
    public_method get_dynamic_cluster_server_groups
| call_get_rcu_schemas : public_method get_rcu_schemas
| call_requires_rcu : public_method requires_rcu
| call_get_targeting : public_method get_targeting
| call_get_post_create_domain_script :
    public_method (get_post_create_domain_script IS_WINDOWS)
| call_is_filtered location name :
    public_method (is_filtered re_match location name).

(** The objects a caller can hold: what the constructor returned, after
    any number of method calls, whether they returned or raised. *)
Inductive reachable : DomainTypedef → Prop :=
| reachable_constructed fuel program_name domain_type self :
    __init__ find_typedef_path json_parse helper TargetingType TopologyProfile
      iteritems fuel program_name domain_type = Some (Return self) →
    reachable self
| reachable_called {A} (m : M A) self :
    public_method m → reachable self → reachable (after m self).
End Lifecycle.

(** ** Definitions used to state the properties *)

(** The selection the specification describes, in its words: starting from
    a candidate, the first candidate that is a key of the table selects its
    entry; a candidate that is no key is followed by the next higher order
    version the oracle gives; when the oracle gives none, nothing is
    selected. *)
Inductive first_candidate (helper : WebLogicHelper)
    (versions_dict : gmap string string) : option string → option string → Prop :=
| candidate_found v entry :
    versions_dict !! v = Some entry →
    first_candidate helper versions_dict (Some v) (Some entry)
| candidate_skipped v selected :
    versions_dict !! v = None →
    first_candidate helper versions_dict
      (get_next_higher_order_version_number helper v) selected →
    first_candidate helper versions_dict (Some v) selected
| candidate_none :
    first_candidate helper versions_dict None None.

(** The oracle's succession ends: some measure of a version decreases at
    every step. *)
Definition oracle_terminates (helper : WebLogicHelper) : Prop :=
  ∃ measure : string → nat,
    ∀ v v', get_next_higher_order_version_number helper v = Some v' →
            measure v' < measure v.

(** An object is marked resolved only after a model context was stored. *)
Definition context_invariant (self : DomainTypedef) : Prop :=
  _paths_resolved self = true → is_Some (_model_context self).

(** A method keeps a property of the object, whether it returns or raises. *)
Definition preserves {A} (P : DomainTypedef → Prop) (m : M A) : Prop :=
  ∀ self, P self → P (after m self).

(** The same definition, document and object without [baseTemplate]. *)
Definition without_base_template (d : DefinitionRecord) : DefinitionRecord :=
  {| baseTemplate := None;
     extensionTemplates := extensionTemplates d;
     customExtensionTemplates := customExtensionTemplates d;
     serverGroupsToTarget := serverGroupsToTarget d;
     dynamicClusterServerGroupsToTarget := dynamicClusterServerGroupsToTarget d;
     rcuSchemas := rcuSchemas d;
     targeting := targeting d;
     postCreateDomainScript := postCreateDomainScript d |}.

Definition document_without_base_template (doc : TypedefDocument) : TypedefDocument :=
  {| versions := versions doc;
     definitions :=
       match definitions doc with
       | Some definitions_dict =>
           Some (without_base_template <$> definitions_dict : gmap string DefinitionRecord)
       | None => None
       end;
     topologyProfile := topologyProfile doc;
     discover_filters := discover_filters doc;
     system_elements := system_elements doc |}.

Definition parse_without_base_template (parsed : ParseOutcome) : ParseOutcome :=
  match parsed with
  | Parsed doc => Parsed (document_without_base_template doc)
  | IllegalArgumentException _ | JsonException _ => parsed
  end.

Definition object_without_base_template (self : DomainTypedef) : DomainTypedef :=
  {| _program_name := _program_name self;
     _domain_type := _domain_type self;
     wls_helper := wls_helper self;
     _domain_typedef_filename := _domain_typedef_filename self;
     _version_typedef_name := _version_typedef_name self;
     _paths_resolved := _paths_resolved self;
     _model_context := _model_context self;
     _domain_typedef := without_base_template (_domain_typedef self);
     _targeting_type := _targeting_type self;
     _post_create_domain_script_dict := _post_create_domain_script_dict self;
     _discover_filters := _discover_filters self;
     _topology_profile := _topology_profile self |}.

(** The exception for a legacy key that the lookup table does not have:
    its class follows the program that constructed the object. *)
Definition unknown_system_element (program_name filename key : string)
    : PyException :=
  if decide (program_name = DISCOVER_DOMAIN)
  then DiscoverException "WLSDPLY-12316" [key; filename]
  else CreateException "WLSDPLY-12316" [key; filename].

(** Once the paths are resolved, every key that a getter reads is a key
    of the definition. *)
Definition keys_present (self : DomainTypedef) : Prop :=
  _paths_resolved self = true →
  is_Some (baseTemplate (_domain_typedef self))
  ∧ is_Some (extensionTemplates (_domain_typedef self))
  ∧ is_Some (customExtensionTemplates (_domain_typedef self))
  ∧ is_Some (serverGroupsToTarget (_domain_typedef self))
  ∧ is_Some (dynamicClusterServerGroupsToTarget (_domain_typedef self))
  ∧ is_Some (rcuSchemas (_domain_typedef self)).

(** An object that is not resolved and has no base template to resolve. *)
Definition unresolvable (self : DomainTypedef) : Prop :=
  _paths_resolved self = false ∧ baseTemplate (_domain_typedef self) = None.

(** What the constructor settles for good: the fields that no method
    assigns, and the keys of the definition that path resolution keeps. *)
Definition same_configuration (self self' : DomainTypedef) : Prop :=
  _program_name self' = _program_name self
  ∧ _domain_type self' = _domain_type self
  ∧ wls_helper self' = wls_helper self
  ∧ _domain_typedef_filename self' = _domain_typedef_filename self
  ∧ _version_typedef_name self' = _version_typedef_name self
  ∧ _targeting_type self' = _targeting_type self
  ∧ _post_create_domain_script_dict self' = _post_create_domain_script_dict self
  ∧ _discover_filters self' = _discover_filters self
  ∧ _topology_profile self' = _topology_profile self
  ∧ targeting (_domain_typedef self') = targeting (_domain_typedef self)
  ∧ postCreateDomainScript (_domain_typedef self') =
      postCreateDomainScript (_domain_typedef self)
  ∧ default [] (rcuSchemas (_domain_typedef self')) =
      default [] (rcuSchemas (_domain_typedef self)).

(** The parsed file with another [system-elements] key, or without it. *)
Definition parse_with_system_elements
    (elements : option (gmap string (list string))) (parsed : ParseOutcome)
    : ParseOutcome :=
  match parsed with
  | Parsed doc =>
      Parsed {| versions := versions doc;
                definitions := definitions doc;
                topologyProfile := topologyProfile doc;
                discover_filters := discover_filters doc;
                system_elements := elements |}
  | IllegalArgumentException _ | JsonException _ => parsed
  end.

(** A method that keeps the keys of a resolved definition present and
    raises nothing but ConfigErrors and the errors of [re.match]. *)
Definition raises_allowed {A} (m : M A) : Prop :=
  ∀ self,
    keys_present self →
    keys_present (after m self)
    ∧ ∀ e, outcome_of m self = Raise e →
           is_ConfigError e = true ∨ ∃ pattern, e = ReError pattern.

(** ** Sample collaborators and documents

    Concrete inputs on which the properties below are exercised. *)

(** An oracle that drops the last component of a dotted version. *)
Definition sample_succession : gmap string string :=
  list_to_map
    [ ("12.2.1.3", "12.2.1"); ("12.2.1", "12.2"); ("12.2", "12");
      ("10.3.6", "10.3"); ("10.3", "10");
      ("14.1.1", "14.1"); ("14.1", "14") ].

Definition sample_helper (current : string) : WebLogicHelper :=
  {| get_actual_weblogic_version := current;
     get_weblogic_version := current;
     get_next_higher_order_version_number := λ v, sample_succession !! v;
     is_set_server_groups_supported := true;
     is_topology_profile_supported := true |}.

Definition sample_versions : gmap string string :=
  list_to_map
    [ ("12.2", "WLS_12C"); ("12.1.1", "WLS_12CR1"); ("10.3", NOT_SUPPORTED) ].

(** A model context that substitutes the token [@@ORACLE_HOME@@] at the
    start of a string. *)
Definition substitute_oracle_home (home s : string) : string :=
  if String.prefix "@@ORACLE_HOME@@" s
  then home ++ String.substring 15 (String.length s - 15) s
  else s.

Definition sample_model_context : ModelContext :=
  {| replace_token_string := substitute_oracle_home "/u01/oracle" |}.

Definition other_model_context : ModelContext :=
  {| replace_token_string := substitute_oracle_home "/opt/oracle" |}.

(** A regular expression engine for a fragment of the syntax: literal
    characters, [.], [x*], a leading [^], a final [$] and groups that are
    not repeated.  Like [re.match] it matches at the start of the string.
    A pattern outside the fragment counts as one that does not compile. *)
Fixpoint match_here (re text : string) {struct re} : bool :=
  match re with
  | "" => true
  | String c re' =>
      let one_character :=
        match text with
        | String x text' =>
            ((Ascii.eqb c "."%char && negb (Ascii.eqb x "010"%char)) || Ascii.eqb c x)
            && match_here re' text'
        | "" => false
        end in
      match re' with
      | String "*"%char re'' =>
          (fix star (t : string) : bool :=
             match_here re'' t
             || match t with
                | String x t' =>
                    ((Ascii.eqb c "."%char && negb (Ascii.eqb x "010"%char)) || Ascii.eqb c x)
                    && star t'
                | "" => false
                end) text
      | "" =>
          if Ascii.eqb c "$"%char
          then bool_decide (text = "" ∨ text = String "010"%char "")
          else one_character
      | _ => one_character
      end
  end.

Fixpoint without_groups (re : string) : string :=
  match re with
  | "" => ""
  | String c re' =>
      if Ascii.eqb c "("%char || Ascii.eqb c ")"%char then without_groups re'
      else String c (without_groups re')
  end.

(** [repeatable] tells whether the previous character can take a [*];
    [depth] counts the groups that are open. *)
Fixpoint in_fragment (repeatable : bool) (depth : nat) (re : string) : bool :=
  match re with
  | "" => bool_decide (depth = 0)
  | String c re' =>
      if bool_decide (c ∈ ["|"; "["; "]"; "092"; "+"; "?"; "{"; "}"; "^"]%char)
      then false
      else if Ascii.eqb c "*"%char then repeatable && in_fragment false depth re'
      else if Ascii.eqb c "("%char then in_fragment false (S depth) re'
      else if Ascii.eqb c ")"%char then
        match depth with
        | O => false
        | S depth' => in_fragment false depth' re'
        end
      else if Ascii.eqb c "$"%char then bool_decide (re' = "") && bool_decide (depth = 0)
      else in_fragment true depth re'
  end.

Definition sample_re_match (pattern s : string) : option bool :=
  let body :=
    match pattern with
    | String "^"%char rest => rest
    | _ => pattern
    end in
  if in_fragment false 0 body then Some (match_here (without_groups body) s)
  else None.

(** A definition with every key, one with the optional keys missing, and
    one without [baseTemplate]. *)
Definition sample_definition : DefinitionRecord :=
  {| baseTemplate := Some "@@ORACLE_HOME@@/wlserver/common/templates/wls/wls.jar";
     extensionTemplates :=
       Some ["@@ORACLE_HOME@@/oracle_common/common/templates/wls/oracle.jrf_template.jar";
             "Oracle Restricted JRF"];
     customExtensionTemplates := Some [];
     serverGroupsToTarget := Some ["JRF-MAN-SVR"];
     dynamicClusterServerGroupsToTarget := Some [];
     rcuSchemas := Some ["MDS"; "STB"];
     targeting := None;
     postCreateDomainScript := None |}.

Definition minimal_definition : DefinitionRecord :=
  {| baseTemplate := Some "Basic WebLogic Server Domain";
     extensionTemplates := None;
     customExtensionTemplates := None;
     serverGroupsToTarget := None;
     dynamicClusterServerGroupsToTarget := None;
     rcuSchemas := None;
     targeting := None;
     postCreateDomainScript := None |}.

Definition baseless_definition : DefinitionRecord :=
  {| baseTemplate := None;
     extensionTemplates := Some ["Oracle JRF"];
     customExtensionTemplates := None;
     serverGroupsToTarget := None;
     dynamicClusterServerGroupsToTarget := None;
     rcuSchemas := Some [];
     targeting := None;
     postCreateDomainScript := None |}.

Definition sample_document (definition : DefinitionRecord) : TypedefDocument :=
  {| versions := Some sample_versions;
     definitions :=
       Some (list_to_map [("WLS_12C", definition); ("WLS_12CR1", sample_definition)]);
     topologyProfile := None;
     discover_filters := None;
     system_elements := Some (list_to_map [("datasources", ["^MyDS.*"])]) |}.

Definition sample_find_typedef_path (file_name : string) : string :=
  "/u01/wdt/lib/typedefs/" ++ file_name.

Definition sample_json_parse (definition : DefinitionRecord) (filename : string)
    : ParseOutcome :=
  if decide (filename = "/u01/wdt/lib/typedefs/WLS.json")
  then Parsed (sample_document definition)
  else IllegalArgumentException "file does not exist".

Definition sample_TargetingType : list string :=
  ["APPLY_JRF_GLOBALLY"; "DO_NOT_APPLY_JRF"].
Definition sample_TopologyProfile : list string := ["Compact"; "Expanded"].

(** The object that [DomainTypedef('createDomain', 'WLS')] is for the
    sample document and WebLogic 12.2.1.3. *)
Definition sample_object (definition : DefinitionRecord) : DomainTypedef :=
  {| _program_name := CREATE_DOMAIN;
     _domain_type := "WLS";
     wls_helper := sample_helper "12.2.1.3";
     _domain_typedef_filename := "/u01/wdt/lib/typedefs/WLS.json";
     _version_typedef_name := "WLS_12C";
     _paths_resolved := false;
     _model_context := None;
     _domain_typedef := definition;
     _targeting_type := None;
     _post_create_domain_script_dict := None;
     _discover_filters := {[ "/JDBCSystemResource" := ["^MyDS.*"] ]};
     _topology_profile := None |}.

Definition sample_init (definition : DefinitionRecord) (fuel : nat)
    : option (Outcome DomainTypedef) :=
  __init__ sample_find_typedef_path (sample_json_parse definition)
    (sample_helper "12.2.1.3") sample_TargetingType sample_TopologyProfile
    map_to_list fuel CREATE_DOMAIN "WLS".

(** The sample object with a longer pattern list, whose last pattern does
    not compile. *)
Definition filtering_object : DomainTypedef :=
  {| _program_name := DISCOVER_DOMAIN;
     _domain_type := "WLS";
     wls_helper := sample_helper "12.2.1.3";
     _domain_typedef_filename := "/u01/wdt/lib/typedefs/WLS.json";
     _version_typedef_name := "WLS_12C";
     _paths_resolved := false;
     _model_context := None;
     _domain_typedef := sample_definition;
     _targeting_type := None;
     _post_create_domain_script_dict := None;
     _discover_filters :=
       {[ "/JDBCSystemResource" := ["^Other.*"; "^MyDS.*"; "("] ]};
     _topology_profile := None |}.

(** Legacy [system-elements] dictionaries. *)
Definition sample_system_elements : gmap string (list string) :=
  list_to_map [("datasources", ["^MyDS.*"]); ("jms", ["^Internal.*"; "^Audit$"])].

Definition unknown_system_elements : gmap string (list string) :=
  list_to_map [("datasources", ["^MyDS.*"]); ("mail-sessions", [])].

(** A WebLogic 10.3.6 helper: no server groups, no topology profiles. *)
Definition legacy_helper : WebLogicHelper :=
  {| get_actual_weblogic_version := "10.3.6";
     get_weblogic_version := "10.3.6";
     get_next_higher_order_version_number := λ v, sample_succession !! v;
     is_set_server_groups_supported := false;
     is_topology_profile_supported := false |}.


Definition profiled_document (profile : string) : TypedefDocument :=
  {| versions := Some sample_versions;
     definitions := Some (list_to_map [("WLS_12C", sample_definition)]);
     topologyProfile := Some profile;
     discover_filters := Some {[ "/Application" := [] ]};
     system_elements := Some unknown_system_elements |}.

(** An engine that knows the two patterns of the class, written out by
    hand, and falls back on the fragment for every other pattern.
    [Oracle JRF] and [Oracle Restricted JRF] match the whole name, a final
    newline apart; the other alternative of the JRF pattern matches a
    string that, after any characters of its first line, goes on with
    [jrf_template], characters among digits, [.] and [_], and [.jar]. *)
Definition whole_name (name s : string) : bool :=
  bool_decide (s = name ∨ s = name ++ String "010" "").

Definition version_character (c : ascii) : bool :=
  bool_decide (c ∈ ["0"; "1"; "2"; "3"; "4"; "5"; "6"; "7"; "8"; "9"; "."; "_"]%char).

Fixpoint jar_after_version (s : string) : bool :=
  String.prefix ".jar" s
  || match s with
     | String c s' => version_character c && jar_after_version s'
     | "" => false
     end.

Fixpoint jrf_template_jar (s : string) : bool :=
  (String.prefix "jrf_template" s
   && jar_after_version (String.substring 12 (String.length s - 12) s))
  || match s with
     | String c s' => negb (Ascii.eqb c "010") && jrf_template_jar s'
     | "" => false
     end.

Definition class_re_match (pattern s : string) : option bool :=
  if decide (pattern = RESTRICTED_JRF_TEMPLATE_REGEX)
  then Some (whole_name "Oracle Restricted JRF" s)
  else if decide (pattern = JRF_TEMPLATE_REGEX)
  then Some (jrf_template_jar s || whole_name "Oracle JRF" s)
  else sample_re_match pattern s.

(** A JRF definition and a definition that lists the JRF template before
    the Restricted JRF one. *)
Definition jrf_definition : DefinitionRecord :=
  {| baseTemplate := Some "Basic WebLogic Server Domain";
     extensionTemplates := Some ["Oracle JRF"; "Oracle Enterprise Manager"];
     customExtensionTemplates := None;
     serverGroupsToTarget := Some ["JRF-MAN-SVR"; "WSMPM-MAN-SVR"];
     dynamicClusterServerGroupsToTarget := None;
     rcuSchemas := Some ["MDS"; "IAU"; "OPSS"; "STB"];
     targeting := None;
     postCreateDomainScript :=
       Some {[ "unixScript" := "@@ORACLE_HOME@@/bin/after_create.sh" ]} |}.

(** The object constructed for the sample document with the JRF
    definition. *)
Definition jrf_object : DomainTypedef :=
  {| _program_name := CREATE_DOMAIN;
     _domain_type := "WLS";
     wls_helper := sample_helper "12.2.1.3";
     _domain_typedef_filename := "/u01/wdt/lib/typedefs/WLS.json";
     _version_typedef_name := "WLS_12C";
     _paths_resolved := false;
     _model_context := None;
     _domain_typedef := jrf_definition;
     _targeting_type := None;
     _post_create_domain_script_dict := postCreateDomainScript jrf_definition;
     _discover_filters := {[ "/JDBCSystemResource" := ["^MyDS.*"] ]};
     _topology_profile := None |}.

(** * Properties *)

(** ** Version resolution *)

Section VersionResolutionFacts.
Variable helper : WebLogicHelper.
Variable versions_dict : gmap string string.

Lemma while_sound fuel candidate selected :
  __match_version_typedef_while helper fuel versions_dict candidate = Some selected →
  first_candidate helper versions_dict candidate selected.
Proof.
  revert candidate.
  induction fuel as [|fuel IH]; intros [v|]; simpl; intros Hrun.
  - destruct (versions_dict !! v) as [entry|] eqn:Hv; [|done].
    injection Hrun as <-. by constructor.
  - injection Hrun as <-. constructor.
  - destruct (versions_dict !! v) as [entry|] eqn:Hv.
    + injection Hrun as <-. by constructor.
    + apply candidate_skipped; [done|]. by apply IH.
  - injection Hrun as <-. constructor.
Qed.

Lemma while_fuel_mono (fuel fuel' : nat) candidate selected :
  (fuel ≤ fuel')%nat →
  __match_version_typedef_while helper fuel versions_dict candidate = Some selected →
  __match_version_typedef_while helper fuel' versions_dict candidate = Some selected.
Proof.
  revert fuel' candidate.
  induction fuel as [|fuel IH]; intros fuel' [v|] Hle; simpl.
  - destruct fuel'; simpl; by destruct (versions_dict !! v).
  - by destruct fuel'.
  - destruct fuel' as [|fuel']; [lia|]. simpl.
    destruct (versions_dict !! v); [done|]. apply IH. lia.
  - by destruct fuel'.
Qed.

Lemma while_complete candidate selected :
  first_candidate helper versions_dict candidate selected →
  ∃ fuel0 : nat, ∀ fuel : nat, (fuel0 ≤ fuel)%nat →
    __match_version_typedef_while helper fuel versions_dict candidate = Some selected.
Proof.
  induction 1 as [v entry Hv|v selected Hv _ [fuel0 IH]|].
  - exists 0. intros fuel _. destruct fuel; simpl; by rewrite Hv.
  - exists (S fuel0). intros [|fuel] Hle; [lia|].
    simpl. rewrite Hv. apply IH. lia.
  - exists 0. intros fuel _. by destruct fuel.
Qed.

Lemma first_candidate_functional candidate s1 s2 :
  first_candidate helper versions_dict candidate s1 →
  first_candidate helper versions_dict candidate s2 →
  s1 = s2.
Proof.
  intros H1. revert s2.
  induction H1 as [v entry Hv|v selected Hv _ IH|]; intros s2 H2; inversion H2; subst.
  - congruence.
  - congruence.
  - congruence.
  - by apply IH.
  - done.
Qed.

Lemma while_terminates (measure : string → nat) :
  (∀ v v', get_next_higher_order_version_number helper v = Some v' →
           measure v' < measure v) →
  ∀ (fuel : nat) candidate,
    (∀ v, candidate = Some v → measure v < fuel) →
    is_Some (__match_version_typedef_while helper fuel versions_dict candidate).
Proof.
  intros Hdec.
  induction fuel as [|fuel IH]; intros [v|] Hle; simpl; try by eexists.
  - specialize (Hle v eq_refl). lia.
  - destruct (versions_dict !! v) eqn:Hv; [by eexists|].
    apply IH. intros v' Hn. apply Hdec in Hn.
    specialize (Hle v eq_refl). lia.
Qed.
Lemma first_candidate_nonempty candidate entry :
  first_candidate helper versions_dict candidate (Some entry) →
  versions_dict ≠ ∅.
Proof.
  remember (Some entry) as selected eqn:Hs.
  induction 1 as [v e He|v sel Hv _ IH|]; [|by auto|done].
  intros Hempty. rewrite Hempty in He. by rewrite lookup_empty in He.
Qed.
End VersionResolutionFacts.

Section MatchVersionTypedef.
Variable helper : WebLogicHelper.
Variables domain_type filename : string.
Variable versions_dict : gmap string string.

Lemma match_version_typedef_empty fuel :
  versions_dict = ∅ →
  __match_version_typedef helper domain_type filename fuel versions_dict =
    Some (Raise (cla_exception "WLSDPLY-12307" [domain_type; filename])).
Proof.
  intros ->. unfold __match_version_typedef.
  rewrite map_size_empty. by rewrite decide_True.
Qed.

Lemma match_version_typedef_exact fuel entry :
  versions_dict !! get_actual_weblogic_version helper = Some entry →
  __match_version_typedef helper domain_type filename fuel versions_dict =
    Some (if decide (entry = NOT_SUPPORTED)
          then Raise (cla_exception "WLSDPLY-12313"
                        [domain_type; get_actual_weblogic_version helper])
          else Return entry).
Proof.
  intros Hv. unfold __match_version_typedef.
  rewrite decide_False.
  - rewrite Hv. simpl. by destruct (decide (entry = NOT_SUPPORTED)).
  - intros Hsize. apply map_size_empty_inv in Hsize.
    rewrite Hsize in Hv. by rewrite lookup_empty in Hv.
Qed.

Lemma match_version_typedef_higher selected :
  versions_dict ≠ ∅ →
  versions_dict !! get_actual_weblogic_version helper = None →
  first_candidate helper versions_dict
    (get_next_higher_order_version_number helper
       (get_actual_weblogic_version helper)) selected →
  ∃ fuel0 : nat, ∀ fuel : nat, (fuel0 ≤ fuel)%nat →
    __match_version_typedef helper domain_type filename fuel versions_dict =
      Some match selected with
           | None =>
               Raise (cla_exception "WLSDPLY-12309"
                        [domain_type; filename; get_actual_weblogic_version helper])
           | Some entry =>
               if decide (entry = NOT_SUPPORTED)
               then Raise (cla_exception "WLSDPLY-12313"
                             [domain_type; get_actual_weblogic_version helper])
               else Return entry
           end.
Proof.
  intros Hne Hv Hsel.
  destruct (while_complete _ _ _ _ Hsel) as [fuel0 Hrun].
  exists fuel0. intros fuel Hle.
  unfold __match_version_typedef.
  rewrite decide_False by (intros Hsize; by apply map_size_empty_inv in Hsize).
  rewrite Hv, (Hrun fuel Hle).
  destruct selected as [entry|]; simpl; [|done].
  by destruct (decide (entry = NOT_SUPPORTED)).
Qed.

Lemma match_version_typedef_total :
  oracle_terminates helper →
  ∃ fuel0 : nat, ∀ fuel : nat, (fuel0 ≤ fuel)%nat →
    is_Some (__match_version_typedef helper domain_type filename fuel versions_dict).
Proof.
  intros [measure Hdec].
  exists (measure (get_actual_weblogic_version helper)). intros fuel Hle.
  unfold __match_version_typedef.
  destruct (decide (size versions_dict = 0)); [by eexists|].
  destruct (versions_dict !! get_actual_weblogic_version helper) as [entry|].
  { simpl. destruct (decide (entry = NOT_SUPPORTED)); by eexists. }
  destruct (while_terminates helper versions_dict measure Hdec fuel
              (get_next_higher_order_version_number helper
                 (get_actual_weblogic_version helper)))
    as [[entry|] ->]; simpl.
  - intros v Hn. apply Hdec in Hn. lia.
  - destruct (decide (entry = NOT_SUPPORTED)); by eexists.
  - by eexists.
Qed.

(** C1: version resolution.  When the current version is a key of the
    table, the resolver answers with that entry, whatever the oracle's
    succession is.  Otherwise it follows the oracle's next higher order
    versions and answers with the entry of the first candidate that is a
    key.  It answers with an entry by returning it, but for the one entry
    that is no definition name, the sentinel, which it rejects (C2).  An
    empty table fails with a ConfigError, and so does a search in which the
    oracle gives none before a candidate is a key.  With an oracle whose
    succession ends, the search ends. *)
Theorem match_version_typedef_resolution :
  (∀ entry fuel,
     versions_dict !! get_actual_weblogic_version helper = Some entry →
     __match_version_typedef helper domain_type filename fuel versions_dict =
       Some (if decide (entry = NOT_SUPPORTED)
             then Raise (cla_exception "WLSDPLY-12313"
                           [domain_type; get_actual_weblogic_version helper])
             else Return entry))
  ∧ (∀ entry,
       versions_dict !! get_actual_weblogic_version helper = None →
       first_candidate helper versions_dict
         (get_next_higher_order_version_number helper
            (get_actual_weblogic_version helper)) (Some entry) →
       ∃ fuel0 : nat, ∀ fuel : nat, (fuel0 ≤ fuel)%nat →
         __match_version_typedef helper domain_type filename fuel versions_dict =
           Some (if decide (entry = NOT_SUPPORTED)
                 then Raise (cla_exception "WLSDPLY-12313"
                               [domain_type; get_actual_weblogic_version helper])
                 else Return entry))
  ∧ (∀ fuel,
       versions_dict = ∅ →
       ∃ e, __match_version_typedef helper domain_type filename fuel versions_dict =
              Some (Raise e)
            ∧ e = cla_exception "WLSDPLY-12307" [domain_type; filename]
            ∧ is_ConfigError e = true)
  ∧ (versions_dict ≠ ∅ →
     versions_dict !! get_actual_weblogic_version helper = None →
     first_candidate helper versions_dict
       (get_next_higher_order_version_number helper
          (get_actual_weblogic_version helper)) None →
     ∃ fuel0 : nat, ∀ fuel : nat, (fuel0 ≤ fuel)%nat →
       ∃ e, __match_version_typedef helper domain_type filename fuel versions_dict =
              Some (Raise e)
            ∧ e = cla_exception "WLSDPLY-12309"
                    [domain_type; filename; get_actual_weblogic_version helper]
            ∧ is_ConfigError e = true)
  ∧ (oracle_terminates helper →
     ∃ fuel0 : nat, ∀ fuel : nat, (fuel0 ≤ fuel)%nat →
       is_Some (__match_version_typedef helper domain_type filename fuel
                  versions_dict)).
Proof.
  repeat split.
  - intros entry fuel Hv. by apply match_version_typedef_exact.
  - intros entry Hv Hsel.
    assert (Hne : versions_dict ≠ ∅) by (by eapply first_candidate_nonempty).
    apply (match_version_typedef_higher _ Hne Hv Hsel).
  - intros fuel Hempty. eexists. by rewrite (match_version_typedef_empty fuel Hempty).
  - intros Hne Hv Hsel.
    destruct (match_version_typedef_higher _ Hne Hv Hsel) as [fuel0 Hrun].
    exists fuel0. intros fuel Hle. eexists. by rewrite (Hrun fuel Hle).
  - apply match_version_typedef_total.
Qed.

(** C2: when the entry that version resolution selects, by exact match or
    by the search through higher order versions, is the NOT_SUPPORTED
    sentinel, resolution fails with a ConfigError although a key matched. *)
Theorem match_version_typedef_not_supported :
  first_candidate helper versions_dict
    (Some (get_actual_weblogic_version helper)) (Some NOT_SUPPORTED) →
  ∃ fuel0 : nat, ∀ fuel : nat, (fuel0 ≤ fuel)%nat →
    ∃ e, __match_version_typedef helper domain_type filename fuel versions_dict =
           Some (Raise e)
         ∧ e = cla_exception "WLSDPLY-12313"
                 [domain_type; get_actual_weblogic_version helper]
         ∧ is_ConfigError e = true.
Proof.
  intros Hsel. inversion Hsel as [v e Hv|v sel Hv Hhigher|]; subst.
  - exists 0. intros fuel _. eexists.
    rewrite (match_version_typedef_exact fuel _ Hv). by rewrite decide_True.
  - assert (Hne : versions_dict ≠ ∅) by (by eapply first_candidate_nonempty).
    destruct (match_version_typedef_higher _ Hne Hv Hhigher) as [fuel0 Hrun].
    exists fuel0. intros fuel Hle. eexists.
    rewrite (Hrun fuel Hle). by rewrite decide_True.
Qed.
End MatchVersionTypedef.

Lemma sample_oracle_terminates current : oracle_terminates (sample_helper current).
Proof.
  exists String.length. intros v v' Hnext. simpl in Hnext.
  unfold sample_succession in Hnext.
  apply elem_of_list_to_map_2 in Hnext.
  repeat (apply elem_of_cons in Hnext as [[= -> ->]|Hnext]; [simpl; lia|]).
  by apply elem_of_nil in Hnext.
Qed.

Example match_version_typedef_exact_sample :
  __match_version_typedef (sample_helper "12.2") "WLS" "WLS.json" 0 sample_versions
  = Some (Return "WLS_12C").
Proof. vm_compute. reflexivity. Qed.

Example match_version_typedef_higher_sample :
  __match_version_typedef (sample_helper "12.2.1.3") "WLS" "WLS.json" 1 sample_versions
  = Some (Return "WLS_12C").
Proof. vm_compute. reflexivity. Qed.

Example match_version_typedef_fuel_sample :
  __match_version_typedef (sample_helper "12.2.1.3") "WLS" "WLS.json" 0 sample_versions
  = None.
Proof. vm_compute. reflexivity. Qed.

Example match_version_typedef_none_sample :
  __match_version_typedef (sample_helper "14.1.1") "WLS" "WLS.json" 2 sample_versions
  = Some (Raise (cla_exception "WLSDPLY-12309" ["WLS"; "WLS.json"; "14.1.1"])).
Proof. vm_compute. reflexivity. Qed.

Lemma match_version_typedef_resolution_witness :
  (__match_version_typedef (sample_helper "12.2") "WLS" "WLS.json" 0 sample_versions
   = Some (Return "WLS_12C"))
  ∧ (∃ fuel0 : nat, ∀ fuel : nat, (fuel0 ≤ fuel)%nat →
       __match_version_typedef (sample_helper "12.2.1.3") "WLS" "WLS.json" fuel
         sample_versions = Some (Return "WLS_12C"))
  ∧ (∃ fuel0 : nat, ∀ fuel : nat, (fuel0 ≤ fuel)%nat →
       ∃ e, __match_version_typedef (sample_helper "14.1.1") "WLS" "WLS.json" fuel
              sample_versions = Some (Raise e)
            ∧ e = cla_exception "WLSDPLY-12309" ["WLS"; "WLS.json"; "14.1.1"]
            ∧ is_ConfigError e = true).
Proof.
  split; [|split].
  - destruct (match_version_typedef_resolution (sample_helper "12.2") "WLS" "WLS.json"
                sample_versions) as [Hexact _].
    exact (Hexact "WLS_12C" 0 eq_refl).
  - destruct (match_version_typedef_resolution (sample_helper "12.2.1.3") "WLS"
                "WLS.json" sample_versions) as (_ & Hhigher & _).
    apply (Hhigher "WLS_12C"); [reflexivity|].
    apply candidate_skipped; [reflexivity|].
    apply candidate_found. reflexivity.
  - destruct (match_version_typedef_resolution (sample_helper "14.1.1") "WLS"
                "WLS.json" sample_versions) as (_ & _ & _ & Hnone & _).
    apply Hnone; [discriminate|reflexivity|].
    apply candidate_skipped; [reflexivity|].
    apply candidate_skipped; [reflexivity|].
    apply candidate_none.
Defined.

Lemma match_version_typedef_not_supported_witness :
  ∃ fuel0 : nat, ∀ fuel : nat, (fuel0 ≤ fuel)%nat →
    ∃ e, __match_version_typedef (sample_helper "10.3.6") "WLS" "WLS.json" fuel
           sample_versions = Some (Raise e)
         ∧ e = cla_exception "WLSDPLY-12313" ["WLS"; "10.3.6"]
         ∧ is_ConfigError e = true.
Proof.
  apply (match_version_typedef_not_supported (sample_helper "10.3.6") "WLS" "WLS.json"
           sample_versions).
  apply candidate_skipped; [reflexivity|].
  apply candidate_found. reflexivity.
Defined.


(** ** The sample object *)

Lemma sample_init_constructs :
  sample_init sample_definition 1 = Some (Return (sample_object sample_definition))
  ∧ sample_init minimal_definition 1 = Some (Return (sample_object minimal_definition))
  ∧ sample_init baseless_definition 1 = Some (Return (sample_object baseless_definition)).
Proof. repeat split; vm_compute; reflexivity. Qed.

(** ** Path resolution *)

Lemma resolve_paths_resolved self :
  _paths_resolved self = true → __resolve_paths self = (Return tt, self).
Proof. intros H. unfold __resolve_paths. by rewrite H. Qed.

Lemma resolve_paths_no_context self :
  _paths_resolved self = false →
  _model_context self = None →
  __resolve_paths self = (Raise (cla_exception "WLSDPLY-12302" []), self).
Proof. intros H1 H2. unfold __resolve_paths. by rewrite H1, H2. Qed.

Lemma resolve_paths_no_base_template self model_context :
  _paths_resolved self = false →
  _model_context self = Some model_context →
  baseTemplate (_domain_typedef self) = None →
  __resolve_paths self =
    (Raise (cla_exception "WLSDPLY-12303"
              [_domain_type self; _domain_typedef_filename self;
               _version_typedef_name self]), self).
Proof. intros H1 H2 H3. unfold __resolve_paths. by rewrite H1, H2, H3. Qed.

Lemma resolve_paths_returns self self' :
  __resolve_paths self = (Return tt, self') → _paths_resolved self' = true.
Proof.
  unfold __resolve_paths.
  destruct (_paths_resolved self) eqn:Hres.
  - by intros [= <-].
  - destruct (_model_context self); [|done].
    destruct (baseTemplate (_domain_typedef self)); [|done].
    by intros [= <-].
Qed.

(** A getter that resolves and then reads one key. *)
Lemma resolving_getter_resolved {A} key (field : DefinitionRecord → option A) self :
  _paths_resolved self = true →
  (__resolve_paths;;;
   let! self := get_self in getitem key (field (_domain_typedef self))) self
  = (match field (_domain_typedef self) with
     | Some a => Return a
     | None => Raise (KeyError key)
     end, self).
Proof.
  intros Hres. unfold bind. rewrite (resolve_paths_resolved _ Hres).
  unfold get_self, getitem. by destruct (field (_domain_typedef self)).
Qed.

Lemma resolving_getter_raises {A} key (field : DefinitionRecord → option A) self e :
  __resolve_paths self = (Raise e, self) →
  (__resolve_paths;;;
   let! self := get_self in getitem key (field (_domain_typedef self))) self
  = (Raise e, self).
Proof. intros Hres. unfold bind. by rewrite Hres. Qed.

(** C3: path resolution is idempotent.  After a resolution that returned,
    the object is marked resolved; when that call did the resolution, each
    path-bearing field holds the token substitution of its original value
    (of the empty list for a missing list), applied once, and the server
    group lists are kept, or empty when missing; resolving again returns
    and leaves the object as it is, and so does every path-returning
    getter; resolving twice is resolving once. *)
Theorem resolve_paths_idempotent (self self' : DomainTypedef) :
  __resolve_paths self = (Return tt, self') →
  _paths_resolved self' = true
  ∧ (_paths_resolved self = false →
     ∃ model_context base_template,
       _model_context self = Some model_context
       ∧ baseTemplate (_domain_typedef self) = Some base_template
       ∧ baseTemplate (_domain_typedef self') =
           Some (replace_token_string model_context base_template)
       ∧ extensionTemplates (_domain_typedef self') =
           Some (map (replace_token_string model_context)
                   (default [] (extensionTemplates (_domain_typedef self))))
       ∧ customExtensionTemplates (_domain_typedef self') =
           Some (map (replace_token_string model_context)
                   (default [] (customExtensionTemplates (_domain_typedef self))))
       ∧ serverGroupsToTarget (_domain_typedef self') =
           Some (default [] (serverGroupsToTarget (_domain_typedef self)))
       ∧ dynamicClusterServerGroupsToTarget (_domain_typedef self') =
           Some (default []
                   (dynamicClusterServerGroupsToTarget (_domain_typedef self)))
       ∧ outcome_of get_base_template self' =
           Return (replace_token_string model_context base_template)
       ∧ outcome_of get_extension_templates self' =
           Return (map (replace_token_string model_context)
                     (default [] (extensionTemplates (_domain_typedef self)))))
  ∧ __resolve_paths self' = (Return tt, self')
  ∧ after get_base_template self' = self'
  ∧ after get_extension_templates self' = self'
  ∧ after get_custom_extension_templates self' = self'
  ∧ after get_server_groups_to_target self' = self'
  ∧ after get_dynamic_cluster_server_groups self' = self'
  ∧ (__resolve_paths;;; __resolve_paths) self = __resolve_paths self.
Proof.
  intros Hrun.
  pose proof (resolve_paths_returns _ _ Hrun) as Hres'.
  split; [done|]. split.
  - intros Hres. revert Hrun. unfold __resolve_paths. rewrite Hres.
    destruct (_model_context self) as [model_context|]; [|done].
    destruct (baseTemplate (_domain_typedef self)) as [base_template|]; [|done].
    intros [= <-]. exists model_context, base_template.
    repeat split; simpl;
      unfold outcome_of, get_base_template, get_extension_templates;
      rewrite ?resolving_getter_resolved by done; simpl;
      try by destruct (extensionTemplates (_domain_typedef self)).
    + by destruct (customExtensionTemplates (_domain_typedef self)).
  - split; [by apply resolve_paths_resolved|].
    unfold after, get_base_template, get_extension_templates,
      get_custom_extension_templates, get_server_groups_to_target,
      get_dynamic_cluster_server_groups.
    rewrite !resolving_getter_resolved by done. simpl.
    repeat split; try done.
    unfold bind. rewrite Hrun. by apply resolve_paths_resolved.
Qed.

Lemma resolve_paths_idempotent_witness :
  let self :=
    with_model_context (Some sample_model_context) (sample_object sample_definition) in
  let self' := after __resolve_paths self in
  _paths_resolved self' = true
  ∧ __resolve_paths self' = (Return tt, self')
  ∧ after get_base_template self' = self'
  ∧ outcome_of get_base_template self' =
      Return "/u01/oracle/wlserver/common/templates/wls/wls.jar".
Proof.
  intros self self'.
  destruct (resolve_paths_idempotent self self' eq_refl)
    as (Hres & Honce & Hagain & Hbase & _).
  destruct (Honce eq_refl) as (c & b & Hc & Hb & _ & _ & _ & _ & _ & Hget & _).
  injection Hc as <-. injection Hb as <-.
  repeat split; assumption.
Defined.

(** ** Storing the model context *)

(** C10: once a model context is stored, [set_model_context] with the same
    or another context returns without an error and leaves every field of
    the object as it was: the stored context is kept and no path is
    resolved again. *)
Theorem set_model_context_absorbing (self : DomainTypedef)
    (stored model_context : ModelContext) :
  _model_context self = Some stored →
  set_model_context model_context self = (Return tt, self).
Proof.
  intros Hstored. unfold set_model_context, bind, get_self.
  by rewrite Hstored.
Qed.

Lemma set_model_context_absorbing_witness :
  let self := after (set_model_context sample_model_context)
                (sample_object sample_definition) in
  _model_context self = Some sample_model_context
  ∧ set_model_context other_model_context self = (Return tt, self).
Proof.
  intros self. split; [reflexivity|].
  apply (set_model_context_absorbing self sample_model_context other_model_context).
  reflexivity.
Defined.

Example set_model_context_first_sample :
  outcome_of (set_model_context sample_model_context;;; get_base_template)
    (sample_object sample_definition)
  = Return "/u01/oracle/wlserver/common/templates/wls/wls.jar".
Proof. reflexivity. Qed.

Example set_model_context_second_sample :
  outcome_of (set_model_context sample_model_context;;;
              set_model_context other_model_context;;;
              get_base_template)
    (sample_object sample_definition)
  = Return "/u01/oracle/wlserver/common/templates/wls/wls.jar".
Proof. reflexivity. Qed.

(** ** Objects without a model context *)

Section Preservation.
Context (P : DomainTypedef → Prop).

Lemma preserves_ret {A} (a : A) : preserves P (ret a).
Proof. by intros self HP. Qed.

Lemma preserves_raise {A} e : preserves P (@raise A e).
Proof. by intros self HP. Qed.

Lemma preserves_get_self : preserves P get_self.
Proof. by intros self HP. Qed.

Lemma preserves_getitem {A} key (value : option A) : preserves P (getitem key value).
Proof. destruct value; [apply preserves_ret|apply preserves_raise]. Qed.

Lemma preserves_bind {A B} (m : M A) (k : A → M B) :
  preserves P m → (∀ a, preserves P (k a)) → preserves P (bind m k).
Proof.
  intros Hm Hk self HP. specialize (Hm self HP).
  unfold after, bind in *.
  destruct (m self) as [[a|e] self1]; simpl in *; [|done].
  by apply Hk.
Qed.
End Preservation.

Lemma resolve_paths_preserves_context : preserves context_invariant __resolve_paths.
Proof.
  intros self Hinv. unfold after, __resolve_paths.
  destruct (_paths_resolved self) eqn:Hres; [done|].
  destruct (_model_context self) as [model_context|] eqn:Hctx; [|done].
  destruct (baseTemplate (_domain_typedef self)); [|done].
  intros _. simpl. rewrite Hctx. by eexists.
Qed.

Lemma set_model_context_preserves_context model_context :
  preserves context_invariant (set_model_context model_context).
Proof.
  intros self Hinv. unfold after, set_model_context, bind, get_self.
  destruct (_model_context self) eqn:Hctx; [done|].
  simpl. apply (resolve_paths_preserves_context (with_model_context _ self)).
  intros _. by eexists.
Qed.

Ltac preserve :=
  repeat first
    [ apply preserves_ret | apply preserves_raise | apply preserves_get_self
    | apply preserves_getitem | apply resolve_paths_preserves_context
    | apply set_model_context_preserves_context
    | apply preserves_bind; [|intros ?]
    | match goal with
      | |- preserves _ (match ?x with _ => _ end) => destruct x
      end ].

Section Reachable.
Variable find_typedef_path : string → string.
Variable json_parse : string → ParseOutcome.
Variable helper : WebLogicHelper.
Variable TargetingType TopologyProfile : list string.
Variable iteritems : gmap string (list string) → list (string * list string).
Variable re_match : string → string → option bool.
Variable IS_WINDOWS : bool.

Lemma public_method_preserves_context {A} (m : M A) :
  public_method re_match IS_WINDOWS m → preserves context_invariant m.
Proof.
  destruct 1;
    unfold get_domain_type, get_topology_profile, is_jrf_domain_type,
      is_restricted_jrf_domain_type, has_extension_templates,
      get_base_template, get_extension_templates,
      get_custom_extension_templates, get_server_groups_to_target,
      get_dynamic_cluster_server_groups, get_rcu_schemas, requires_rcu,
      get_targeting, get_post_create_domain_script, is_filtered;
    preserve.
Qed.

Lemma init_unresolved fuel program_name domain_type self :
  __init__ find_typedef_path json_parse helper TargetingType TopologyProfile
    iteritems fuel program_name domain_type = Some (Return self) →
  _paths_resolved self = false ∧ _model_context self = None.
Proof.
  unfold __init__. destruct (json_parse _) as [doc| |]; [|done..].
  unfold and_then.
  destruct (__get_version_typedef _ _ _ _ _) as [[[name d]|]|]; [|done..].
  destruct (_resolve_targeting_type _ _ _ _); [|done].
  destruct (match discover_filters doc with Some _ => _ | None => _ end); [|done].
  destruct (_resolve_topology_profile _ _ _ _); [|done].
  by intros [= <-].
Qed.

Lemma reachable_context_invariant self :
  reachable find_typedef_path json_parse helper TargetingType TopologyProfile
    iteritems re_match IS_WINDOWS self →
  context_invariant self.
Proof.
  induction 1 as [fuel pn dt self Hinit|A m self Hm _ IH].
  - apply init_unresolved in Hinit as [Hres _]. intros Hres'. congruence.
  - by apply (public_method_preserves_context m).
Qed.
End Reachable.

(** C7: on an object that was constructed and then used in any way without
    a model context ever being stored, each of the five path-returning
    getters raises the ConfigError WLSDPLY-12302 and returns no default;
    the object is left as it was. *)
Theorem getters_require_model_context
    (find_typedef_path : string → string) (json_parse : string → ParseOutcome)
    (helper : WebLogicHelper) (TargetingType TopologyProfile : list string)
    (iteritems : gmap string (list string) → list (string * list string))
    (re_match : string → string → option bool) (IS_WINDOWS : bool)
    (self : DomainTypedef) :
  reachable find_typedef_path json_parse helper TargetingType TopologyProfile
    iteritems re_match IS_WINDOWS self →
  _model_context self = None →
  is_ConfigError (cla_exception "WLSDPLY-12302" []) = true
  ∧ get_base_template self = (Raise (cla_exception "WLSDPLY-12302" []), self)
  ∧ get_extension_templates self =
      (Raise (cla_exception "WLSDPLY-12302" []), self)
  ∧ get_custom_extension_templates self =
      (Raise (cla_exception "WLSDPLY-12302" []), self)
  ∧ get_server_groups_to_target self =
      (Raise (cla_exception "WLSDPLY-12302" []), self)
  ∧ get_dynamic_cluster_server_groups self =
      (Raise (cla_exception "WLSDPLY-12302" []), self).
Proof.
  intros Hreach Hctx.
  assert (Hres : _paths_resolved self = false).
  { apply reachable_context_invariant in Hreach.
    destruct (_paths_resolved self) eqn:Hres; [|done].
    destruct (Hreach Hres) as [c Hc]. congruence. }
  pose proof (resolve_paths_no_context self Hres Hctx) as Hraise.
  split; [done|].
  unfold get_base_template, get_extension_templates,
    get_custom_extension_templates, get_server_groups_to_target,
    get_dynamic_cluster_server_groups.
  repeat split; by apply resolving_getter_raises.
Qed.

Lemma getters_require_model_context_witness :
  get_base_template (sample_object sample_definition) =
    (Raise (cla_exception "WLSDPLY-12302" []), sample_object sample_definition)
  ∧ get_server_groups_to_target (after requires_rcu (sample_object sample_definition)) =
    (Raise (cla_exception "WLSDPLY-12302" []),
     after requires_rcu (sample_object sample_definition)).
Proof.
  split.
  - apply (getters_require_model_context
             sample_find_typedef_path (sample_json_parse sample_definition)
             (sample_helper "12.2.1.3") sample_TargetingType sample_TopologyProfile
             map_to_list (λ _ _, Some false) false (sample_object sample_definition)).
    + apply (reachable_constructed _ _ _ _ _ _ _ _ 1 CREATE_DOMAIN "WLS").
      vm_compute. reflexivity.
    + reflexivity.
  - apply (getters_require_model_context
             sample_find_typedef_path (sample_json_parse sample_definition)
             (sample_helper "12.2.1.3") sample_TargetingType sample_TopologyProfile
             map_to_list (λ _ _, Some false) false
             (after requires_rcu (sample_object sample_definition))).
    + apply reachable_called; [constructor|].
      apply (reachable_constructed _ _ _ _ _ _ _ _ 1 CREATE_DOMAIN "WLS").
      vm_compute. reflexivity.
    + reflexivity.
Defined.

(** ** The RCU schemas *)

Lemma get_rcu_schemas_cases self :
  get_rcu_schemas self =
    (match rcuSchemas (_domain_typedef self) with
     | Some schemas => Return schemas
     | None => Raise (KeyError "rcuSchemas")
     end, self).
Proof.
  unfold get_rcu_schemas, bind, get_self, getitem.
  by destruct (rcuSchemas (_domain_typedef self)).
Qed.

Lemma requires_rcu_cases self :
  requires_rcu self =
    (Return match rcuSchemas (_domain_typedef self) with
            | Some (_ :: _) => true
            | Some [] | None => false
            end, self).
Proof.
  unfold requires_rcu, bind, get_self.
  by destruct (rcuSchemas (_domain_typedef self)) as [[|schema schemas]|].
Qed.

(** C4, at a typedef whose definition has no [rcuSchemas] key: the object
    is constructed, and before any path resolution [requires_rcu] returns
    false while [get_rcu_schemas] raises Python's [KeyError], which is no
    ConfigError, instead of returning the empty list; once the paths are
    resolved it returns the empty list. *)
Theorem get_rcu_schemas_absent_before_resolution :
  sample_init minimal_definition 1 = Some (Return (sample_object minimal_definition))
  ∧ rcuSchemas (_domain_typedef (sample_object minimal_definition)) = None
  ∧ _paths_resolved (sample_object minimal_definition) = false
  ∧ requires_rcu (sample_object minimal_definition) =
      (Return false, sample_object minimal_definition)
  ∧ get_rcu_schemas (sample_object minimal_definition) =
      (Raise (KeyError "rcuSchemas"), sample_object minimal_definition)
  ∧ is_ConfigError (KeyError "rcuSchemas") = false
  ∧ outcome_of (set_model_context sample_model_context;;; get_rcu_schemas)
      (sample_object minimal_definition) = Return [].
Proof. repeat split; vm_compute; reflexivity. Qed.

(** What does hold of the two accessors on every object: neither resolves
    paths nor changes the object; [requires_rcu] is true exactly for a
    present, non-empty list; [get_rcu_schemas] returns a present list. *)
Lemma rcu_accessors_without_resolution self :
  after get_rcu_schemas self = self
  ∧ after requires_rcu self = self
  ∧ (outcome_of requires_rcu self = Return true ↔
     ∃ schemas, rcuSchemas (_domain_typedef self) = Some schemas ∧ schemas ≠ [])
  ∧ (∀ schemas, rcuSchemas (_domain_typedef self) = Some schemas →
       outcome_of get_rcu_schemas self = Return schemas).
Proof.
  unfold after, outcome_of. rewrite get_rcu_schemas_cases, requires_rcu_cases.
  simpl. repeat split.
  - destruct (rcuSchemas (_domain_typedef self)) as [[|schema schemas]|]; try done.
    intros _. by eexists.
  - intros (schemas & -> & Hne). by destruct schemas.
  - by intros schemas ->.
Qed.

(** ** A definition without a base template *)

Section Construction.
Variable find_typedef_path : string → string.
Variable json_parse : string → ParseOutcome.
Variable helper : WebLogicHelper.
Variable TargetingType TopologyProfile : list string.
Variable iteritems : gmap string (list string) → list (string * list string).

(** The constructor does not look at [baseTemplate]: without the key in
    the file it raises the same exception, runs out of fuel alike, or
    returns the same object without the key. *)
Lemma init_ignores_base_template fuel program_name domain_type :
  __init__ find_typedef_path (λ filename, parse_without_base_template (json_parse filename))
    helper TargetingType TopologyProfile iteritems fuel program_name domain_type
  = match __init__ find_typedef_path json_parse helper TargetingType TopologyProfile
            iteritems fuel program_name domain_type with
    | Some (Return self) => Some (Return (object_without_base_template self))
    | other => other
    end.
Proof.
  unfold __init__.
  destruct (json_parse _) as [doc| |]; simpl; [|done..].
  unfold __get_version_typedef. simpl.
  destruct (versions doc) as [versions_dict|]; [|done].
  destruct (definitions doc) as [definitions_dict|]; simpl; [|done].
  destruct (__match_version_typedef _ _ _ _ _) as [[name|e]|]; simpl; [|done..].
  rewrite lookup_fmap.
  destruct (definitions_dict !! name) as [d|]; simpl; [|done].
  unfold _resolve_targeting_type. simpl.
  destruct (match targeting d with Some _ => _ | None => _ end); simpl; [|done].
  destruct (match discover_filters doc with Some _ => _ | None => _ end); simpl; [|done].
  by destruct (_resolve_topology_profile _ _ _ _).
Qed.
End Construction.

Lemma without_base_template_absent self :
  baseTemplate (_domain_typedef self) = None →
  object_without_base_template self = self.
Proof.
  destruct self as [? ? ? ? ? ? ? d ? ? ? ?]. destruct d. simpl.
  by intros ->.
Qed.

(** C8: a typedef whose selected definition lacks [baseTemplate].  The
    constructor never looks at the key: the file without it constructs
    exactly when the file with it does, and returns the object that has no
    base template.  On the constructed object the absence shows at the
    first path resolution: storing a model context raises the ConfigError
    WLSDPLY-12303 and keeps the context, after which every call of a
    path-returning getter raises it again; a getter called before any
    context is stored raises the ConfigError WLSDPLY-12302. *)
Theorem base_template_checked_at_resolution
    (find_typedef_path : string → string) (json_parse : string → ParseOutcome)
    (helper : WebLogicHelper) (TargetingType TopologyProfile : list string)
    (iteritems : gmap string (list string) → list (string * list string))
    (fuel : nat) (program_name domain_type : string) :
  (∀ self,
     __init__ find_typedef_path json_parse helper TargetingType TopologyProfile
       iteritems fuel program_name domain_type = Some (Return self) →
     __init__ find_typedef_path
       (λ filename, parse_without_base_template (json_parse filename))
       helper TargetingType TopologyProfile iteritems fuel program_name domain_type
     = Some (Return (object_without_base_template self)))
  ∧ (∀ self,
       __init__ find_typedef_path json_parse helper TargetingType TopologyProfile
         iteritems fuel program_name domain_type = Some (Return self) →
       baseTemplate (_domain_typedef self) = None →
       let missing :=
         cla_exception "WLSDPLY-12303"
           [_domain_type self; _domain_typedef_filename self;
            _version_typedef_name self] in
       is_ConfigError missing = true
       ∧ (∀ model_context,
            let stored := with_model_context (Some model_context) self in
            set_model_context model_context self = (Raise missing, stored)
            ∧ __resolve_paths stored = (Raise missing, stored)
            ∧ get_base_template stored = (Raise missing, stored)
            ∧ get_extension_templates stored = (Raise missing, stored)
            ∧ get_custom_extension_templates stored = (Raise missing, stored)
            ∧ get_server_groups_to_target stored = (Raise missing, stored)
            ∧ get_dynamic_cluster_server_groups stored = (Raise missing, stored))
       ∧ fails_with_ConfigError (outcome_of get_base_template self)
       ∧ fails_with_ConfigError (outcome_of get_extension_templates self)
       ∧ fails_with_ConfigError (outcome_of get_custom_extension_templates self)
       ∧ fails_with_ConfigError (outcome_of get_server_groups_to_target self)
       ∧ fails_with_ConfigError (outcome_of get_dynamic_cluster_server_groups self)).
Proof.
  split.
  - intros self Hinit. by rewrite init_ignores_base_template, Hinit.
  - intros self Hinit Hbase missing.
    apply init_unresolved in Hinit as [Hres Hctx].
    split; [done|]. split.
    + intros model_context stored.
      assert (Hraise : __resolve_paths stored = (Raise missing, stored)).
      { by apply (resolve_paths_no_base_template stored model_context). }
      split.
      { unfold set_model_context, bind, get_self, put_self. rewrite Hctx.
        exact Hraise. }
      split; [done|].
      unfold get_base_template, get_extension_templates,
        get_custom_extension_templates, get_server_groups_to_target,
        get_dynamic_cluster_server_groups.
      repeat split; by apply resolving_getter_raises.
    + pose proof (resolve_paths_no_context self Hres Hctx) as Hraise.
      unfold fails_with_ConfigError, outcome_of, get_base_template,
        get_extension_templates, get_custom_extension_templates,
        get_server_groups_to_target, get_dynamic_cluster_server_groups.
      rewrite !(resolving_getter_raises _ _ _ _ Hraise). simpl.
      repeat split; by eexists.
Qed.

Lemma base_template_checked_at_resolution_witness :
  sample_init baseless_definition 1 = Some (Return (sample_object baseless_definition))
  ∧ set_model_context sample_model_context (sample_object baseless_definition) =
      (Raise (cla_exception "WLSDPLY-12303"
                ["WLS"; "/u01/wdt/lib/typedefs/WLS.json"; "WLS_12C"]),
       with_model_context (Some sample_model_context)
         (sample_object baseless_definition)).
Proof.
  assert (Hinit : sample_init baseless_definition 1 =
                  Some (Return (sample_object baseless_definition)))
    by (vm_compute; reflexivity).
  split; [exact Hinit|].
  destruct (base_template_checked_at_resolution
              sample_find_typedef_path (sample_json_parse baseless_definition)
              (sample_helper "12.2.1.3") sample_TargetingType sample_TopologyProfile
              map_to_list 1 CREATE_DOMAIN "WLS") as [_ Hlate].
  destruct (Hlate (sample_object baseless_definition) Hinit eq_refl)
    as (_ & Hset & _).
  apply (Hset sample_model_context).
Defined.

(** ** The Restricted JRF test *)

Section RestrictedJrf.
Variable re_match : string → string → option bool.

Lemma is_restricted_jrf_domain_type_cases self self' templates :
  get_extension_templates self = (Return templates, self') →
  is_restricted_jrf_domain_type re_match self =
    (match templates with
     | [] => Return None
     | first :: _ =>
         match re_match RESTRICTED_JRF_TEMPLATE_REGEX first with
         | Some matched => Return (Some matched)
         | None => Raise (ReError RESTRICTED_JRF_TEMPLATE_REGEX)
         end
     end, self').
Proof.
  intros Hget. unfold is_restricted_jrf_domain_type, bind. rewrite Hget.
  destruct templates as [|first rest]; [done|].
  by destruct (re_match RESTRICTED_JRF_TEMPLATE_REGEX first) as [[|]|].
Qed.

(** C5: [is_restricted_jrf_domain_type] examines the first extension
    template only.  With a non-empty list of extension templates the
    result is true exactly when the first one matches the Restricted JRF
    pattern, and two objects whose lists start with the same template get
    the same result, whatever follows it.  With the empty list no match is
    reported: the method returns Python's None. *)
Theorem restricted_jrf_examines_first_template
    (self self' : DomainTypedef) (templates : list string) :
  get_extension_templates self = (Return templates, self') →
  (∀ first rest,
     templates = first :: rest →
     (outcome_of (is_restricted_jrf_domain_type re_match) self = Return (Some true)
      ↔ re_match RESTRICTED_JRF_TEMPLATE_REGEX first = Some true)
     ∧ (re_match RESTRICTED_JRF_TEMPLATE_REGEX first = Some false →
        outcome_of (is_restricted_jrf_domain_type re_match) self = Return (Some false))
     ∧ (∀ other other' others,
          get_extension_templates other = (Return (first :: others), other') →
          outcome_of (is_restricted_jrf_domain_type re_match) other =
          outcome_of (is_restricted_jrf_domain_type re_match) self))
  ∧ (templates = [] →
     outcome_of (is_restricted_jrf_domain_type re_match) self = Return None)
  ∧ after (is_restricted_jrf_domain_type re_match) self = self'.
Proof.
  intros Hget. unfold outcome_of, after.
  rewrite (is_restricted_jrf_domain_type_cases _ _ _ Hget). simpl.
  repeat split.
  - subst templates.
    by destruct (re_match RESTRICTED_JRF_TEMPLATE_REGEX first) as [[|]|].
  - subst templates. by intros ->.
  - subst templates. by intros ->.
  - intros other other' others Hother.
    rewrite (is_restricted_jrf_domain_type_cases _ _ _ Hother). by subst templates.
  - by intros ->.
Qed.
End RestrictedJrf.

Lemma restricted_jrf_examines_first_template_witness :
  let self :=
    after (set_model_context sample_model_context) (sample_object sample_definition) in
  get_extension_templates self =
    (Return ["/u01/oracle/oracle_common/common/templates/wls/oracle.jrf_template.jar";
             "Oracle Restricted JRF"], self)
  ∧ sample_re_match RESTRICTED_JRF_TEMPLATE_REGEX "Oracle Restricted JRF" = Some true
  ∧ outcome_of (is_restricted_jrf_domain_type sample_re_match) self = Return (Some false).
Proof.
  intros self.
  assert (Hget : get_extension_templates self =
    (Return ["/u01/oracle/oracle_common/common/templates/wls/oracle.jrf_template.jar";
             "Oracle Restricted JRF"], self)) by reflexivity.
  split; [exact Hget|]. split; [reflexivity|].
  destruct (restricted_jrf_examines_first_template sample_re_match self self _ Hget)
    as [Hfirst _].
  destruct (Hfirst _ _ eq_refl) as (_ & Hfalse & _).
  apply Hfalse. reflexivity.
Defined.

(** ** Discover filters *)

Section Filters.
Variable re_match : string → string → option bool.

Lemma is_filtered_patterns_first_match before pattern later name :
  (∀ q, q ∈ before → re_match q name = Some false) →
  re_match pattern name = Some true →
  is_filtered_patterns re_match (before ++ pattern :: later) name = Return true.
Proof.
  intros Hbefore Hmatch. induction before as [|q before IH]; simpl.
  - by rewrite Hmatch.
  - rewrite (Hbefore q) by (apply elem_of_cons; by left).
    apply IH. intros q' Hq'. apply Hbefore. apply elem_of_cons. by right.
Qed.

Lemma is_filtered_patterns_compiled patterns name :
  (∀ p, p ∈ patterns → is_Some (re_match p name)) →
  ∃ b, is_filtered_patterns re_match patterns name = Return b
       ∧ (b = true ↔ ∃ p, p ∈ patterns ∧ re_match p name = Some true).
Proof.
  induction patterns as [|p patterns IH]; intros Hcompiled; simpl.
  - exists false. split; [done|]. split; [done|].
    intros (p & Hp & _). by apply elem_of_nil in Hp.
  - destruct (Hcompiled p) as [[|] Hp]; [apply elem_of_cons; by left| |]; rewrite Hp.
    + exists true. split; [done|]. split; [|done].
      intros _. exists p. split; [apply elem_of_cons; by left|done].
    + destruct IH as (b & Hrun & Hb).
      { intros q Hq. apply Hcompiled. apply elem_of_cons. by right. }
      exists b. split; [done|]. rewrite Hb. split.
      * intros (q & Hq & Hmatch). exists q. split; [apply elem_of_cons; by right|done].
      * intros (q & Hq & Hmatch). apply elem_of_cons in Hq as [->|Hq]; [congruence|].
        by exists q.
Qed.

Lemma is_filtered_named self location patterns name :
  _discover_filters self !! get_folder_path location = Some patterns →
  is_filtered re_match location (Some name) self =
    (is_filtered_patterns re_match patterns name, self).
Proof.
  intros Hkey. unfold is_filtered, bind, get_self. rewrite Hkey.
  by destruct (is_filtered_patterns re_match patterns name).
Qed.

(** C6: [is_filtered].  A folder path that is no key of the filter table
    is not filtered.  For a key, a call without a name returns true
    whatever the patterns are.  With a name the patterns of the key are
    matched with [re.match] in list order: the first that matches makes
    the result true, and nothing after it is looked at; when all patterns
    compile the result is true exactly when some pattern matches, so it is
    false when none does. *)
Theorem is_filtered_first_match (self : DomainTypedef) (location : Location) :
  (_discover_filters self !! get_folder_path location = None →
   ∀ name, is_filtered re_match location name self = (Return false, self))
  ∧ (∀ patterns,
       _discover_filters self !! get_folder_path location = Some patterns →
       is_filtered re_match location None self = (Return true, self)
       ∧ (∀ name (before later : list string) pattern,
            patterns = (before ++ pattern :: later)%list →
            (∀ q, q ∈ before → re_match q name = Some false) →
            re_match pattern name = Some true →
            is_filtered re_match location (Some name) self = (Return true, self))
       ∧ (∀ name,
            (∀ p, p ∈ patterns → is_Some (re_match p name)) →
            ∃ b, is_filtered re_match location (Some name) self = (Return b, self)
                 ∧ (b = true ↔ ∃ p, p ∈ patterns ∧ re_match p name = Some true))
       ∧ (∀ name,
            (∀ p, p ∈ patterns → re_match p name = Some false) →
            is_filtered re_match location (Some name) self = (Return false, self))).
Proof.
  split.
  - intros Hkey name. unfold is_filtered, bind, get_self. by rewrite Hkey.
  - intros patterns Hkey. repeat split.
    + unfold is_filtered, bind, get_self. by rewrite Hkey.
    + intros name before later pattern -> Hbefore Hmatch.
      rewrite (is_filtered_named _ _ _ _ Hkey).
      by rewrite is_filtered_patterns_first_match.
    + intros name Hcompiled. rewrite (is_filtered_named _ _ _ _ Hkey).
      destruct (is_filtered_patterns_compiled patterns name Hcompiled) as (b & -> & Hb).
      by exists b.
    + intros name Hnone. rewrite (is_filtered_named _ _ _ _ Hkey).
      destruct (is_filtered_patterns_compiled patterns name) as (b & -> & Hb).
      { intros p Hp. rewrite (Hnone p Hp). by eexists. }
      destruct b; [|done].
      destruct (proj1 Hb eq_refl) as (p & Hp & Hmatch).
      rewrite (Hnone p Hp) in Hmatch. done.
Qed.
End Filters.

Lemma is_filtered_first_match_witness :
  is_filtered sample_re_match {| get_folder_path := "/JDBCSystemResource" |}
    (Some "MyDS1") filtering_object = (Return true, filtering_object)
  ∧ is_filtered sample_re_match {| get_folder_path := "/JDBCSystemResource" |}
      None filtering_object = (Return true, filtering_object)
  ∧ is_filtered sample_re_match {| get_folder_path := "/Application" |}
      (Some "MyDS1") filtering_object = (Return false, filtering_object).
Proof.
  destruct (is_filtered_first_match sample_re_match filtering_object
              {| get_folder_path := "/JDBCSystemResource" |}) as [_ Hkey].
  destruct (Hkey ["^Other.*"; "^MyDS.*"; "("] eq_refl) as (Hall & Hfirst & _).
  split; [|split].
  - apply (Hfirst "MyDS1" ["^Other.*"] ["("] "^MyDS.*"); [reflexivity| |reflexivity].
    intros q Hq. apply list_elem_of_singleton in Hq as ->. reflexivity.
  - exact Hall.
  - apply (is_filtered_first_match sample_re_match filtering_object
             {| get_folder_path := "/Application" |}).
    reflexivity.
Defined.

(** The scenario of the specification, on the object constructed from the
    sample document, and a pattern that does not compile. *)
Example is_filtered_scenario :
  let jdbc := {| get_folder_path := "/JDBCSystemResource" |} in
  let self := sample_object sample_definition in
  outcome_of (is_filtered sample_re_match jdbc (Some "MyDS1")) self = Return true
  ∧ outcome_of (is_filtered sample_re_match jdbc (Some "OtherDS")) self = Return false
  ∧ outcome_of (is_filtered sample_re_match jdbc None) self = Return true
  ∧ outcome_of (is_filtered sample_re_match jdbc (Some "Queue")) filtering_object
    = Raise (ReError "(").
Proof. repeat split. Qed.

(** ** Legacy filter translation *)

Lemma key_mapping_table_lookup key new_key :
  __key_mapping_table !! key = Some new_key ↔
  (key, new_key) ∈
    [ ("apps", "/Application");
      ("coherence-clusters", "/CoherenceClusterSystemResource");
      ("datasources", "/JDBCSystemResource");
      ("file-stores", "/FileStore");
      ("jms", "/JMSSystemResource");
      ("jms-server", "/JMSServer");
      ("shared-libraries", "/Library");
      ("shutdown-classes", "/ShutdownClass");
      ("startup-classes", "/StartupClass");
      ("wldf", "/WLDFSystemResource") ].
Proof.
  unfold __key_mapping_table. symmetry. apply elem_of_list_to_map.
  compute_done.
Qed.

Lemma key_mapping_table_inj key1 key2 new_key :
  __key_mapping_table !! key1 = Some new_key →
  __key_mapping_table !! key2 = Some new_key →
  key1 = key2.
Proof.
  rewrite !key_mapping_table_lookup. intros H1 H2.
  repeat (apply elem_of_cons in H1 as [H1|H1]);
    [..|by apply elem_of_nil in H1];
    injection H1 as -> ->;
    repeat (apply elem_of_cons in H2 as [H2|H2]);
    try (by apply elem_of_nil in H2);
    by injection H2 as ->.
Qed.

Section TranslationFacts.
Variables program_name filename : string.

Lemma unknown_system_element_ConfigError key :
  is_ConfigError (unknown_system_element program_name filename key) = true.
Proof. unfold unknown_system_element. by destruct (decide _). Qed.

Lemma translate_loop_returns items acc :
  (∀ key patterns, (key, patterns) ∈ items → is_Some (__key_mapping_table !! key)) →
  ∃ filters,
    _translate_system_elements_loop program_name filename items acc = Return filters.
Proof.
  revert acc. induction items as [|[key patterns] items IH]; intros acc Hknown; simpl.
  - by eexists.
  - unfold _convert_system_elements_key_name.
    destruct (Hknown key patterns) as [new_key ->]; [apply elem_of_cons; by left|].
    apply IH. intros k p Hk. apply (Hknown k p). apply elem_of_cons. by right.
Qed.

Lemma translate_loop_raises items acc :
  (∃ key patterns, (key, patterns) ∈ items ∧ __key_mapping_table !! key = None) →
  ∃ unknown patterns,
    (unknown, patterns) ∈ items
    ∧ __key_mapping_table !! unknown = None
    ∧ _translate_system_elements_loop program_name filename items acc =
        Raise (unknown_system_element program_name filename unknown).
Proof.
  revert acc. induction items as [|[key patterns] items IH]; intros acc Hunknown; simpl.
  - destruct Hunknown as (k & p & Hk & _). by apply elem_of_nil in Hk.
  - unfold _convert_system_elements_key_name at 1.
    destruct (__key_mapping_table !! key) as [new_key|] eqn:Hkey.
    + destruct (IH (<[new_key := patterns]> acc)) as (u & p & Hu & Hnone & Hrun).
      { destruct Hunknown as (k & p & Hk & Hnone).
        apply elem_of_cons in Hk as [[= -> ->]|Hk]; [congruence|]. by exists k, p. }
      exists u, p. split; [apply elem_of_cons; by right|done].
    + exists key, patterns. split; [apply elem_of_cons; by left|]. split; [done|].
      unfold unknown_system_element. by destruct (decide _).
Qed.

Lemma translate_loop_lookup items acc filters :
  NoDup items.*1 →
  _translate_system_elements_loop program_name filename items acc = Return filters →
  ∀ new_key patterns,
    filters !! new_key = Some patterns ↔
    (∃ key, (key, patterns) ∈ items ∧ __key_mapping_table !! key = Some new_key)
    ∨ ((∀ key p, (key, p) ∈ items → __key_mapping_table !! key ≠ Some new_key)
       ∧ acc !! new_key = Some patterns).
Proof.
  revert acc. induction items as [|[key value] items IH]; intros acc Hnodup; simpl.
  - intros [= <-] new_key patterns. split.
    + intros Hacc. right. split; [|done]. intros k p Hk. by apply elem_of_nil in Hk.
    + intros [(k & Hk & _)|[_ Hacc]]; [by apply elem_of_nil in Hk|done].
  - unfold _convert_system_elements_key_name at 1.
    destruct (__key_mapping_table !! key) as [mapped|] eqn:Hkey;
      [|by destruct (decide _)].
    intros Hrun new_key patterns.
    apply NoDup_cons in Hnodup as [Hfresh Hnodup]. simpl in Hfresh.
    rewrite (IH _ Hnodup Hrun new_key patterns). split.
    + intros [(k & Hk & Hmap)|[Hnone Hacc]].
      * left. exists k. split; [apply elem_of_cons; by right|done].
      * destruct (decide (mapped = new_key)) as [->|Hne].
        -- rewrite lookup_insert_eq in Hacc. injection Hacc as ->.
           left. exists key. split; [apply elem_of_cons; by left|done].
        -- rewrite lookup_insert_ne in Hacc by done.
           right. split; [|done]. intros k p Hk.
           apply elem_of_cons in Hk as [[= -> ->]|Hk]; [congruence|by eapply Hnone].
    + intros [(k & Hk & Hmap)|[Hnone Hacc]].
      * apply elem_of_cons in Hk as [[= -> <-]|Hk]; [|left; by exists k].
        right. split.
        -- intros k p Hk Hmap'.
           pose proof (key_mapping_table_inj _ _ _ Hmap Hmap') as <-.
           apply Hfresh. apply list_elem_of_fmap. by exists (key, p).
        -- rewrite Hkey in Hmap. injection Hmap as ->. apply lookup_insert_eq.
      * right. split.
        -- intros k p Hk. apply (Hnone k p). apply elem_of_cons. by right.
        -- rewrite lookup_insert_ne; [done|]. intros ->.
           apply (Hnone key value); [apply elem_of_cons; by left|done].
Qed.
End TranslationFacts.

(** C9: legacy filter translation.  Whatever the order in which the
    dictionary yields its items: when every key is in the lookup table, the
    translation returns a table that has, for each key, its canonical
    folder path with the same pattern list, and nothing else; when some key
    is not in the lookup table, the translation raises the ConfigError
    WLSDPLY-12316 for such a key, a DiscoverException when the program is
    discoverDomain and a CreateException otherwise. *)
Theorem translate_system_elements_by_table
    (program_name filename : string)
    (system_elements_dict : gmap string (list string))
    (items : list (string * list string)) :
  items ≡ₚ map_to_list system_elements_dict →
  ((∀ key, is_Some (system_elements_dict !! key) →
           is_Some (__key_mapping_table !! key)) →
   ∃ filters,
     _translate_system_elements program_name filename items = Return filters
     ∧ (∀ key patterns,
          system_elements_dict !! key = Some patterns →
          ∃ new_key, __key_mapping_table !! key = Some new_key
                     ∧ filters !! new_key = Some patterns)
     ∧ (∀ new_key patterns,
          filters !! new_key = Some patterns →
          ∃ key, __key_mapping_table !! key = Some new_key
                 ∧ system_elements_dict !! key = Some patterns))
  ∧ ((∃ key, is_Some (system_elements_dict !! key)
             ∧ __key_mapping_table !! key = None) →
     ∃ unknown,
       is_Some (system_elements_dict !! unknown)
       ∧ __key_mapping_table !! unknown = None
       ∧ _translate_system_elements program_name filename items =
           Raise (unknown_system_element program_name filename unknown)
       ∧ is_ConfigError (unknown_system_element program_name filename unknown) = true)
  ∧ (∀ key,
       unknown_system_element DISCOVER_DOMAIN filename key =
         DiscoverException "WLSDPLY-12316" [key; filename]
       ∧ (program_name ≠ DISCOVER_DOMAIN →
          unknown_system_element program_name filename key =
            CreateException "WLSDPLY-12316" [key; filename])).
Proof.
  intros Hitems.
  assert (Hin : ∀ key patterns,
            (key, patterns) ∈ items ↔ system_elements_dict !! key = Some patterns).
  { intros key patterns. rewrite Hitems. apply elem_of_map_to_list. }
  assert (Hnodup : NoDup items.*1).
  { rewrite Hitems. apply NoDup_fst_map_to_list. }
  split; [|split].
  - intros Hknown.
    destruct (translate_loop_returns program_name filename items ∅) as [filters Hrun].
    { intros key patterns Hk. apply Hknown. apply Hin in Hk. by eexists. }
    exists filters. split; [done|].
    pose proof (translate_loop_lookup _ _ _ _ _ Hnodup Hrun) as Hlookup.
    split.
    + intros key patterns Hkey.
      destruct (Hknown key) as [new_key Hmap]; [by eexists|].
      exists new_key. split; [done|]. apply Hlookup. left.
      exists key. by rewrite Hin.
    + intros new_key patterns Hfilters.
      apply Hlookup in Hfilters as [(key & Hk & Hmap)|[_ Hempty]].
      * exists key. by rewrite <-Hin.
      * by rewrite lookup_empty in Hempty.
  - intros (key & [patterns Hkey] & Hnone).
    destruct (translate_loop_raises program_name filename items ∅)
      as (unknown & p & Hu & Hunknown & Hrun).
    { exists key, patterns. by rewrite Hin. }
    exists unknown. split; [apply Hin in Hu; by eexists|].
    split; [done|]. split; [done|]. apply unknown_system_element_ConfigError.
  - intros key. unfold unknown_system_element. split.
    + by rewrite decide_True.
    + intros Hne. by rewrite decide_False.
Qed.

Lemma translate_system_elements_by_table_witness :
  (∃ filters,
     _translate_system_elements CREATE_DOMAIN "WLS.json"
       (map_to_list sample_system_elements) = Return filters
     ∧ filters !! "/JDBCSystemResource" = Some ["^MyDS.*"]
     ∧ filters !! "/JMSSystemResource" = Some ["^Internal.*"; "^Audit$"])
  ∧ (∃ unknown,
       is_Some (unknown_system_elements !! unknown)
       ∧ __key_mapping_table !! unknown = None
       ∧ _translate_system_elements DISCOVER_DOMAIN "WLS.json"
           (map_to_list unknown_system_elements) =
           Raise (unknown_system_element DISCOVER_DOMAIN "WLS.json" unknown)
       ∧ is_ConfigError (unknown_system_element DISCOVER_DOMAIN "WLS.json" unknown)
         = true).
Proof.
  split.
  - destruct (translate_system_elements_by_table CREATE_DOMAIN "WLS.json"
                sample_system_elements (map_to_list sample_system_elements)
                (reflexivity _)) as [Hknown _].
    destruct Hknown as (filters & Hrun & Hkeys & _).
    { intros key [patterns Hkey]. unfold sample_system_elements in Hkey.
      apply elem_of_list_to_map_2 in Hkey.
      repeat (apply elem_of_cons in Hkey as [[= -> ->]|Hkey]; [by eexists|]).
      by apply elem_of_nil in Hkey. }
    exists filters. split; [exact Hrun|]. split.
    + destruct (Hkeys "datasources" ["^MyDS.*"] eq_refl) as (new_key & Hmap & Hfilters).
      injection Hmap as <-. exact Hfilters.
    + destruct (Hkeys "jms" ["^Internal.*"; "^Audit$"] eq_refl)
        as (new_key & Hmap & Hfilters).
      injection Hmap as <-. exact Hfilters.
  - apply (translate_system_elements_by_table DISCOVER_DOMAIN "WLS.json"
             unknown_system_elements (map_to_list unknown_system_elements)
             (reflexivity _)).
    exists "mail-sessions". split; [by eexists|reflexivity].
Defined.

Example translate_system_elements_create :
  _translate_system_elements CREATE_DOMAIN "WLS.json"
    [("datasources", ["^MyDS.*"]); ("mail-sessions", []); ("wldf", [])]
  = Raise (CreateException "WLSDPLY-12316" ["mail-sessions"; "WLS.json"]).
Proof. vm_compute. reflexivity. Qed.

Example translate_system_elements_discover :
  _translate_system_elements DISCOVER_DOMAIN "WLS.json"
    [("datasources", ["^MyDS.*"]); ("mail-sessions", []); ("wldf", [])]
  = Raise (DiscoverException "WLSDPLY-12316" ["mail-sessions"; "WLS.json"]).
Proof. vm_compute. reflexivity. Qed.

Example translate_system_elements_known :
  _translate_system_elements DISCOVER_DOMAIN "WLS.json"
    [("datasources", ["^MyDS.*"]); ("wldf", [])]
  = Return (<["/WLDFSystemResource" := []]>
              (<["/JDBCSystemResource" := ["^MyDS.*"]]> ∅)).
Proof. vm_compute. reflexivity. Qed.

(** * Further properties of the class *)

(** ** What every public method keeps *)

Ltac preserve_by Hresolve Hset :=
  repeat first
    [ apply preserves_ret | apply preserves_raise | apply preserves_get_self
    | apply preserves_getitem | apply Hresolve | apply Hset
    | apply preserves_bind; [|intros ?]
    | match goal with
      | |- preserves _ (match ?x with _ => _ end) => destruct x
      end ].

Lemma public_method_preserves (P : DomainTypedef → Prop)
    (re_match : string → string → option bool) (IS_WINDOWS : bool) :
  preserves P __resolve_paths →
  (∀ model_context, preserves P (set_model_context model_context)) →
  ∀ {A} (m : M A), public_method re_match IS_WINDOWS m → preserves P m.
Proof.
  intros Hresolve Hset A m Hm.
  destruct Hm;
    unfold get_domain_type, get_topology_profile, is_jrf_domain_type,
      is_restricted_jrf_domain_type, has_extension_templates,
      get_base_template, get_extension_templates,
      get_custom_extension_templates, get_server_groups_to_target,
      get_dynamic_cluster_server_groups, get_rcu_schemas, requires_rcu,
      get_targeting, get_post_create_domain_script, is_filtered;
    preserve_by Hresolve Hset.
Qed.

(** [set_model_context] keeps what [__resolve_paths] keeps, when storing a
    context keeps it too. *)
Lemma set_model_context_preserves (P : DomainTypedef → Prop) model_context :
  preserves P __resolve_paths →
  (∀ self, P self → _model_context self = None →
           P (with_model_context (Some model_context) self)) →
  preserves P (set_model_context model_context).
Proof.
  intros Hresolve Hstore self HP.
  unfold after, set_model_context, bind, get_self.
  destruct (_model_context self) eqn:Hctx; [done|].
  simpl. apply (Hresolve (with_model_context _ self)). by apply Hstore.
Qed.

Lemma resolve_paths_cases self :
  __resolve_paths self = (Return tt, self)
  ∨ (∃ e, __resolve_paths self = (Raise e, self) ∧ is_ConfigError e = true
          ∧ _paths_resolved self = false)
  ∨ (∃ model_context base_template,
       _paths_resolved self = false
       ∧ _model_context self = Some model_context
       ∧ baseTemplate (_domain_typedef self) = Some base_template
       ∧ ∃ d, __resolve_paths self = (Return tt, with_resolved d self)
              ∧ baseTemplate d =
                  Some (replace_token_string model_context base_template)
              ∧ extensionTemplates d =
                  Some (map (replace_token_string model_context)
                          (default [] (extensionTemplates (_domain_typedef self))))
              ∧ customExtensionTemplates d =
                  Some (map (replace_token_string model_context)
                          (default [] (customExtensionTemplates (_domain_typedef self))))
              ∧ serverGroupsToTarget d =
                  Some (default [] (serverGroupsToTarget (_domain_typedef self)))
              ∧ dynamicClusterServerGroupsToTarget d =
                  Some (default []
                          (dynamicClusterServerGroupsToTarget (_domain_typedef self)))
              ∧ rcuSchemas d = Some (default [] (rcuSchemas (_domain_typedef self)))
              ∧ targeting d = targeting (_domain_typedef self)
              ∧ postCreateDomainScript d =
                  postCreateDomainScript (_domain_typedef self)).
Proof.
  unfold __resolve_paths.
  destruct (_paths_resolved self) eqn:Hres; [by left|].
  destruct (_model_context self) as [model_context|] eqn:Hctx;
    [|right; left; by eexists].
  destruct (baseTemplate (_domain_typedef self)) as [base_template|] eqn:Hbase;
    [|right; left; by eexists].
  right. right. exists model_context, base_template.
  repeat split; try done. eexists. split; [reflexivity|]. simpl.
  repeat split;
    by destruct (extensionTemplates (_domain_typedef self)),
      (customExtensionTemplates (_domain_typedef self)).
Qed.

Lemma same_configuration_refl self : same_configuration self self.
Proof. by repeat split. Qed.

Lemma resolve_paths_same_configuration self0 :
  preserves (same_configuration self0) __resolve_paths.
Proof.
  intros self Hsame. unfold after.
  destruct (resolve_paths_cases self)
    as [->|[(e & -> & _)|(c & b & _ & _ & _ & d & -> & _ & _ & _ & _ & _ & Hrcu & Ht & Hp)]];
    [done..|].
  unfold same_configuration in *. simpl. rewrite Hrcu, Ht, Hp. simpl.
  destruct Hsame as (?&?&?&?&?&?&?&?&?&?&?&?). by repeat split.
Qed.

(** X1: no public method assigns what the constructor settled.  After any
    call, returned or raised, the program name, the domain type, the
    helper, the file name, the name of the version typedef, the targeting
    type, the post-create script, the discover filters and the topology
    profile are what they were, and so are the [targeting] and
    [postCreateDomainScript] keys of the definition and its RCU schemas;
    hence [is_filtered] and [requires_rcu] answer after the call as they
    did before it. *)
Theorem public_methods_keep_configuration
    (re_match : string → string → option bool) (IS_WINDOWS : bool)
    {A} (m : M A) (self : DomainTypedef) :
  public_method re_match IS_WINDOWS m →
  same_configuration self (after m self)
  ∧ (∀ location name,
       outcome_of (is_filtered re_match location name) (after m self) =
       outcome_of (is_filtered re_match location name) self)
  ∧ outcome_of requires_rcu (after m self) = outcome_of requires_rcu self.
Proof.
  intros Hm.
  assert (Hsame : same_configuration self (after m self)).
  { apply (public_method_preserves (same_configuration self) re_match IS_WINDOWS);
      [apply resolve_paths_same_configuration| |done|apply same_configuration_refl].
    intros c. apply set_model_context_preserves;
      [apply resolve_paths_same_configuration|].
    intros s Hs _. exact Hs. }
  split; [done|].
  destruct Hsame as (_&_&_&_&_&_&_&Hfilters&_&_&_&Hrcu).
  split.
  - intros location name. unfold outcome_of, is_filtered, bind, get_self.
    rewrite Hfilters.
    destruct (_discover_filters self !! get_folder_path location) as [patterns|];
      [|done].
    destruct name as [name|]; [|done].
    by destruct (is_filtered_patterns re_match patterns name).
  - unfold outcome_of. rewrite !requires_rcu_cases. simpl.
    destruct (rcuSchemas (_domain_typedef (after m self))) as [[|? ?]|],
      (rcuSchemas (_domain_typedef self)) as [[|? ?]|]; simpl in Hrcu; congruence.
Qed.

Lemma public_methods_keep_configuration_witness :
  let self := sample_object sample_definition in
  let self' := after (set_model_context sample_model_context) self in
  _discover_filters self' = _discover_filters self
  ∧ outcome_of (is_filtered sample_re_match
                  {| get_folder_path := "/JDBCSystemResource" |} (Some "MyDS1")) self'
    = outcome_of (is_filtered sample_re_match
                    {| get_folder_path := "/JDBCSystemResource" |} (Some "MyDS1")) self.
Proof.
  intros self self'.
  destruct (public_methods_keep_configuration sample_re_match false
              (set_model_context sample_model_context) self
              (call_set_model_context sample_re_match false sample_model_context))
    as (Hsame & Hfiltered & _).
  split.
  - apply Hsame.
  - apply Hfiltered.
Defined.

(** X2: the life of an object only moves forward.  A stored model context
    is never replaced or dropped, and an object marked resolved stays
    resolved, whatever public method is called and whether it returns or
    raises. *)
Theorem public_methods_keep_context_and_resolution
    (re_match : string → string → option bool) (IS_WINDOWS : bool)
    {A} (m : M A) (self : DomainTypedef) :
  public_method re_match IS_WINDOWS m →
  (∀ stored, _model_context self = Some stored →
             _model_context (after m self) = Some stored)
  ∧ (_paths_resolved self = true → _paths_resolved (after m self) = true).
Proof.
  intros Hm. split.
  - intros stored Hstored.
    apply (public_method_preserves (λ s, _model_context s = Some stored)
             re_match IS_WINDOWS); [| |done|done].
    + intros s Hs. unfold after.
      destruct (resolve_paths_cases s)
        as [->|[(e & -> & _)|(c & b & _ & _ & _ & d & -> & _)]]; done.
    + intros c s Hs. unfold after, set_model_context, bind, get_self.
      by rewrite Hs.
  - intros Hres.
    apply (public_method_preserves (λ s, _paths_resolved s = true)
             re_match IS_WINDOWS); [| |done|done].
    + intros s Hs. unfold after. by rewrite (resolve_paths_resolved s Hs).
    + intros c. apply set_model_context_preserves.
      * intros s Hs. unfold after. by rewrite (resolve_paths_resolved s Hs).
      * by intros s Hs _.
Qed.

Lemma public_methods_keep_context_and_resolution_witness :
  let self := after (set_model_context sample_model_context)
                (sample_object sample_definition) in
  _model_context (after (set_model_context other_model_context) self) =
    Some sample_model_context
  ∧ _paths_resolved (after (is_jrf_domain_type sample_re_match) self) = true.
Proof.
  intros self. split.
  - apply (public_methods_keep_context_and_resolution sample_re_match false
             (set_model_context other_model_context) self
             (call_set_model_context sample_re_match false other_model_context)).
    reflexivity.
  - apply (public_methods_keep_context_and_resolution sample_re_match false
             (is_jrf_domain_type sample_re_match) self
             (call_is_jrf_domain_type sample_re_match false)).
    reflexivity.
Defined.

(** ** Reachable objects *)

Lemma resolve_paths_keys_present : preserves keys_present __resolve_paths.
Proof.
  intros self Hkeys. unfold after.
  destruct (resolve_paths_cases self)
    as [->|[(e & -> & _)
           |(c & b & _ & _ & _ & d & -> & Hb & He & Hc & Hs & Hd & Hr & _)]];
    [done..|].
  intros _. simpl. rewrite Hb, He, Hc, Hs, Hd, Hr. by repeat split.
Qed.

Lemma set_model_context_keys_present model_context :
  preserves keys_present (set_model_context model_context).
Proof.
  apply set_model_context_preserves; [apply resolve_paths_keys_present|].
  by intros self Hkeys _.
Qed.

Lemma resolve_paths_unresolvable : preserves unresolvable __resolve_paths.
Proof.
  intros self [Hres Hbase]. unfold after.
  destruct (resolve_paths_cases self)
    as [->|[(e & -> & _)|(c & b & _ & _ & Hb & _)]]; [done..|congruence].
Qed.

Lemma set_model_context_unresolvable model_context :
  preserves unresolvable (set_model_context model_context).
Proof.
  apply set_model_context_preserves; [apply resolve_paths_unresolvable|].
  by intros self Hun _.
Qed.

Lemma resolved_object_unchanged
    (re_match : string → string → option bool) (IS_WINDOWS : bool)
    {A} (m : M A) (self : DomainTypedef) :
  _paths_resolved self = true →
  is_Some (_model_context self) →
  public_method re_match IS_WINDOWS m →
  after m self = self.
Proof.
  intros Hres [stored Hctx] Hm. symmetry.
  apply (public_method_preserves (λ s, self = s) re_match IS_WINDOWS);
    [| |done|done].
  - intros s <-. unfold after. by rewrite (resolve_paths_resolved self Hres).
  - intros c s <-. unfold after, set_model_context, bind, get_self.
    by rewrite Hctx.
Qed.

Lemma resolved_getter_returns {A} key (field : DefinitionRecord → option A) self :
  _paths_resolved self = true →
  is_Some (field (_domain_typedef self)) →
  ∃ a, (__resolve_paths;;;
        let! self := get_self in getitem key (field (_domain_typedef self))) self
       = (Return a, self).
Proof.
  intros Hres [a Ha]. exists a.
  rewrite (resolving_getter_resolved key field self Hres). by rewrite Ha.
Qed.

Lemma path_getters_outcome self :
  keys_present self →
  ((∃ a, outcome_of get_base_template self = Return a)
   ∧ (∃ a, outcome_of get_extension_templates self = Return a)
   ∧ (∃ a, outcome_of get_custom_extension_templates self = Return a)
   ∧ (∃ a, outcome_of get_server_groups_to_target self = Return a)
   ∧ (∃ a, outcome_of get_dynamic_cluster_server_groups self = Return a)
   ∧ _paths_resolved (after get_base_template self) = true)
  ∨ (∃ e, is_ConfigError e = true
          ∧ get_base_template self = (Raise e, self)
          ∧ get_extension_templates self = (Raise e, self)
          ∧ get_custom_extension_templates self = (Raise e, self)
          ∧ get_server_groups_to_target self = (Raise e, self)
          ∧ get_dynamic_cluster_server_groups self = (Raise e, self)).
Proof.
  intros Hkeys.
  unfold outcome_of, after, get_base_template, get_extension_templates,
    get_custom_extension_templates, get_server_groups_to_target,
    get_dynamic_cluster_server_groups.
  destruct (resolve_paths_cases self)
    as [Hsame|[(e & Hraise & He & _)
              |(c & b & _ & _ & _ & d & Hrun & Hb & Hx & Hc & Hs & Hd & _)]].
  - left. pose proof (resolve_paths_returns _ _ Hsame) as Hres.
    destruct (Hkeys Hres) as ([? Hb] & [? Hx] & [? Hc] & [? Hs] & [? Hd] & _).
    rewrite (resolving_getter_resolved "baseTemplate" baseTemplate self Hres).
    rewrite (resolving_getter_resolved "extensionTemplates" extensionTemplates
               self Hres).
    rewrite (resolving_getter_resolved "customExtensionTemplates"
               customExtensionTemplates self Hres).
    rewrite (resolving_getter_resolved "serverGroupsToTarget" serverGroupsToTarget
               self Hres).
    rewrite (resolving_getter_resolved "dynamicClusterServerGroupsToTarget"
               dynamicClusterServerGroupsToTarget self Hres).
    rewrite Hb, Hx, Hc, Hs, Hd. simpl. repeat split; first [done|by eexists].
  - right. exists e. split; [done|].
    repeat split; by apply resolving_getter_raises.
  - left. unfold bind. rewrite Hrun. unfold get_self, getitem. simpl.
    rewrite Hb, Hx, Hc, Hs, Hd. simpl. repeat split; first [done|by eexists].
Qed.

Section ReachableObjects.
Variable find_typedef_path : string → string.
Variable json_parse : string → ParseOutcome.
Variable helper : WebLogicHelper.
Variable TargetingType TopologyProfile : list string.
Variable iteritems : gmap string (list string) → list (string * list string).
Variable re_match : string → string → option bool.
Variable IS_WINDOWS : bool.

Lemma reachable_keys_present self :
  reachable find_typedef_path json_parse helper TargetingType TopologyProfile
    iteritems re_match IS_WINDOWS self →
  keys_present self.
Proof.
  induction 1 as [fuel pn dt self Hinit|A m self Hm _ IH].
  - apply init_unresolved in Hinit as [Hres _]. intros Hres'. congruence.
  - by apply (public_method_preserves keys_present re_match IS_WINDOWS
                resolve_paths_keys_present set_model_context_keys_present m).
Qed.

(** X3: on an object that was constructed and then used in any way, a
    path-returning getter never raises [KeyError]: either all five
    getters return a value and the object is resolved afterwards, or all
    five raise one and the same ConfigError and leave the object as it
    was. *)
Theorem path_getters_return_or_ConfigError (self : DomainTypedef) :
  reachable find_typedef_path json_parse helper TargetingType TopologyProfile
    iteritems re_match IS_WINDOWS self →
  ((∃ a, outcome_of get_base_template self = Return a)
   ∧ (∃ a, outcome_of get_extension_templates self = Return a)
   ∧ (∃ a, outcome_of get_custom_extension_templates self = Return a)
   ∧ (∃ a, outcome_of get_server_groups_to_target self = Return a)
   ∧ (∃ a, outcome_of get_dynamic_cluster_server_groups self = Return a)
   ∧ _paths_resolved (after get_base_template self) = true)
  ∨ (∃ e, is_ConfigError e = true
          ∧ get_base_template self = (Raise e, self)
          ∧ get_extension_templates self = (Raise e, self)
          ∧ get_custom_extension_templates self = (Raise e, self)
          ∧ get_server_groups_to_target self = (Raise e, self)
          ∧ get_dynamic_cluster_server_groups self = (Raise e, self)).
Proof.
  intros Hreach. apply path_getters_outcome. by apply reachable_keys_present.
Qed.

(** X4: a resolved object is frozen.  On an object that was constructed
    and then used in any way, once the paths are resolved every public
    method, [set_model_context] included, leaves every field as it is, and
    [get_rcu_schemas] returns. *)
Theorem resolved_object_is_frozen (self : DomainTypedef) :
  reachable find_typedef_path json_parse helper TargetingType TopologyProfile
    iteritems re_match IS_WINDOWS self →
  _paths_resolved self = true →
  (∀ {A} (m : M A), public_method re_match IS_WINDOWS m → after m self = self)
  ∧ ∃ schemas, outcome_of get_rcu_schemas self = Return schemas.
Proof.
  intros Hreach Hres. split.
  - intros A m Hm. apply (resolved_object_unchanged re_match IS_WINDOWS m self Hres);
      [|done].
    by apply (reachable_context_invariant _ _ _ _ _ _ _ _ _ Hreach).
  - destruct (reachable_keys_present self Hreach Hres) as (_&_&_&_&_&[schemas Hs]).
    exists schemas. unfold outcome_of. rewrite get_rcu_schemas_cases. simpl.
    by rewrite Hs.
Qed.

(** X5: a missing base template is never made up for.  When the object is
    unresolved and its definition has no [baseTemplate], it stays so after
    every public method, and each path-returning getter fails with a
    ConfigError: WLSDPLY-12302 while no model context is stored,
    WLSDPLY-12303 from then on. *)
Theorem missing_base_template_is_permanent
    {A} (m : M A) (self : DomainTypedef) :
  unresolvable self →
  public_method re_match IS_WINDOWS m →
  unresolvable (after m self)
  ∧ fails_with_ConfigError (outcome_of get_base_template self)
  ∧ fails_with_ConfigError (outcome_of get_extension_templates self)
  ∧ fails_with_ConfigError (outcome_of get_custom_extension_templates self)
  ∧ fails_with_ConfigError (outcome_of get_server_groups_to_target self)
  ∧ fails_with_ConfigError (outcome_of get_dynamic_cluster_server_groups self)
  ∧ fails_with_ConfigError (outcome_of has_extension_templates self)
  ∧ fails_with_ConfigError (outcome_of (is_restricted_jrf_domain_type re_match) self)
  ∧ fails_with_ConfigError (outcome_of (is_jrf_domain_type re_match) self).
Proof.
  intros Hun Hm. split.
  { by apply (public_method_preserves unresolvable re_match IS_WINDOWS
                resolve_paths_unresolvable set_model_context_unresolvable m). }
  destruct Hun as [Hres Hbase].
  assert (Hraise : ∃ e, __resolve_paths self = (Raise e, self)
                        ∧ is_ConfigError e = true).
  { destruct (_model_context self) as [c|] eqn:Hctx.
    - eexists. split; [by apply (resolve_paths_no_base_template self c)|done].
    - eexists. split; [by apply resolve_paths_no_context|done]. }
  destruct Hraise as (e & Hraise & He).
  unfold fails_with_ConfigError, outcome_of, has_extension_templates,
    is_jrf_domain_type, is_restricted_jrf_domain_type,
    get_base_template, get_extension_templates, get_custom_extension_templates,
    get_server_groups_to_target, get_dynamic_cluster_server_groups, bind.
  rewrite Hraise. simpl. repeat split; by exists e.
Qed.
End ReachableObjects.

Lemma sample_object_reachable :
  reachable sample_find_typedef_path (sample_json_parse sample_definition)
    (sample_helper "12.2.1.3") sample_TargetingType sample_TopologyProfile
    map_to_list sample_re_match false
    (after (set_model_context sample_model_context) (sample_object sample_definition)).
Proof.
  apply reachable_called; [constructor|].
  apply (reachable_constructed _ _ _ _ _ _ _ _ 1 CREATE_DOMAIN "WLS").
  vm_compute. reflexivity.
Defined.

Lemma path_getters_return_or_ConfigError_witness :
  let self := after (set_model_context sample_model_context)
                (sample_object sample_definition) in
  ((∃ a, outcome_of get_base_template self = Return a)
   ∧ (∃ a, outcome_of get_extension_templates self = Return a)
   ∧ (∃ a, outcome_of get_custom_extension_templates self = Return a)
   ∧ (∃ a, outcome_of get_server_groups_to_target self = Return a)
   ∧ (∃ a, outcome_of get_dynamic_cluster_server_groups self = Return a)
   ∧ _paths_resolved (after get_base_template self) = true)
  ∨ (∃ e, is_ConfigError e = true
          ∧ get_base_template self = (Raise e, self)
          ∧ get_extension_templates self = (Raise e, self)
          ∧ get_custom_extension_templates self = (Raise e, self)
          ∧ get_server_groups_to_target self = (Raise e, self)
          ∧ get_dynamic_cluster_server_groups self = (Raise e, self)).
Proof.
  intros self.
  exact (path_getters_return_or_ConfigError
           sample_find_typedef_path (sample_json_parse sample_definition)
           (sample_helper "12.2.1.3") sample_TargetingType sample_TopologyProfile
           map_to_list sample_re_match false self sample_object_reachable).
Defined.

Lemma resolved_object_is_frozen_witness :
  let self := after (set_model_context sample_model_context)
                (sample_object sample_definition) in
  after (set_model_context other_model_context) self = self
  ∧ after (is_jrf_domain_type sample_re_match) self = self.
Proof.
  intros self.
  destruct (resolved_object_is_frozen
              sample_find_typedef_path (sample_json_parse sample_definition)
              (sample_helper "12.2.1.3") sample_TargetingType sample_TopologyProfile
              map_to_list sample_re_match false self sample_object_reachable eq_refl)
    as [Hfrozen _].
  split; apply Hfrozen; constructor.
Defined.

Lemma missing_base_template_is_permanent_witness :
  unresolvable (after (set_model_context sample_model_context)
                  (sample_object baseless_definition))
  ∧ fails_with_ConfigError
      (outcome_of get_base_template (sample_object baseless_definition)).
Proof.
  destruct (missing_base_template_is_permanent sample_re_match false
              (set_model_context sample_model_context)
              (sample_object baseless_definition)) as (Hstays & Hfails & _).
  - split; reflexivity.
  - constructor.
  - split; [exact Hstays|exact Hfails].
Defined.

(** ** Version typedef, targeting and topology profile *)

Lemma first_candidate_entry helper versions_dict candidate entry :
  first_candidate helper versions_dict candidate (Some entry) →
  ∃ v, versions_dict !! v = Some entry.
Proof.
  remember (Some entry) as selected eqn:Hs.
  induction 1 as [v e He|v sel Hv _ IH|]; [|by auto|done].
  injection Hs as ->. by exists v.
Qed.

Lemma match_version_typedef_outcomes
    (helper : WebLogicHelper) (domain_type filename : string) (fuel : nat)
    (versions_dict : gmap string string) :
  (∀ name,
     __match_version_typedef helper domain_type filename fuel versions_dict =
       Some (Return name) →
     name ≠ NOT_SUPPORTED
     ∧ first_candidate helper versions_dict
         (Some (get_actual_weblogic_version helper)) (Some name)
     ∧ ∃ v, versions_dict !! v = Some name)
  ∧ (∀ e,
       __match_version_typedef helper domain_type filename fuel versions_dict =
         Some (Raise e) →
       is_ConfigError e = true).
Proof.
  unfold __match_version_typedef.
  destruct (decide (size versions_dict = 0)) as [Hempty|Hne].
  { split; [done|]. by intros e [= <-]. }
  destruct (versions_dict !! get_actual_weblogic_version helper) as [entry|] eqn:Hv.
  - simpl. destruct (decide (entry = NOT_SUPPORTED)) as [->|Hsup].
    + split; [done|]. by intros e [= <-].
    + split; [|done]. intros name [= <-]. split; [done|].
      split; [by constructor|by eexists].
  - destruct (__match_version_typedef_while helper fuel versions_dict
                (get_next_higher_order_version_number helper
                   (get_actual_weblogic_version helper)))
      as [[entry|]|] eqn:Hrun; simpl.
    + apply while_sound in Hrun.
      destruct (decide (entry = NOT_SUPPORTED)) as [->|Hsup].
      * split; [done|]. by intros e [= <-].
      * split; [|done]. intros name [= <-]. split; [done|].
        split; [by apply candidate_skipped|by eapply first_candidate_entry].
    + split; [done|]. by intros e [= <-].
    + done.
Qed.

(** X6: what version resolution returns, with any number of loop
    iterations allowed.  A returned name is never the sentinel; it is the
    entry of the first candidate that is a key, counted from the current
    version along the oracle's succession, so it is a value of the table.
    An exception it raises is a ConfigError. *)
Theorem match_version_typedef_sound
    (helper : WebLogicHelper) (domain_type filename : string) (fuel : nat)
    (versions_dict : gmap string string) :
  (∀ name,
     __match_version_typedef helper domain_type filename fuel versions_dict =
       Some (Return name) →
     name ≠ NOT_SUPPORTED
     ∧ first_candidate helper versions_dict
         (Some (get_actual_weblogic_version helper)) (Some name)
     ∧ ∃ v, versions_dict !! v = Some name)
  ∧ (∀ e,
       __match_version_typedef helper domain_type filename fuel versions_dict =
         Some (Raise e) →
       is_ConfigError e = true).
Proof. apply match_version_typedef_outcomes. Qed.

Lemma match_version_typedef_sound_witness :
  "WLS_12C" ≠ NOT_SUPPORTED
  ∧ first_candidate (sample_helper "12.2.1.3") sample_versions
      (Some "12.2.1.3") (Some "WLS_12C")
  ∧ ∃ v, sample_versions !! v = Some "WLS_12C".
Proof.
  destruct (match_version_typedef_sound (sample_helper "12.2.1.3") "WLS" "WLS.json" 1
              sample_versions) as [Hreturned _].
  apply (Hreturned "WLS_12C"). reflexivity.
Defined.

Section VersionTypedef.
Variable helper : WebLogicHelper.
Variables domain_type filename : string.

(** X7: [__get_version_typedef].  A document without [versions] fails with
    WLSDPLY-12304 and, with [versions], one without [definitions] fails
    with WLSDPLY-12305; both before the table or the oracle is looked at.
    A returned pair is a name that version resolution returns from the
    table together with the definition stored under that name.  A
    resolved name that is no key of [definitions] fails with
    WLSDPLY-12306. *)
Theorem get_version_typedef_outcome (fuel : nat) (doc : TypedefDocument) :
  (versions doc = None →
   __get_version_typedef helper fuel domain_type filename doc =
     Some (Raise (cla_exception "WLSDPLY-12304" [domain_type; filename])))
  ∧ (is_Some (versions doc) → definitions doc = None →
     __get_version_typedef helper fuel domain_type filename doc =
       Some (Raise (cla_exception "WLSDPLY-12305" [domain_type; filename])))
  ∧ (∀ name definition,
       __get_version_typedef helper fuel domain_type filename doc =
         Some (Return (name, definition)) →
       ∃ versions_dict definitions_dict,
         versions doc = Some versions_dict
         ∧ definitions doc = Some definitions_dict
         ∧ __match_version_typedef helper domain_type filename fuel versions_dict =
             Some (Return name)
         ∧ definitions_dict !! name = Some definition)
  ∧ (∀ versions_dict definitions_dict name,
       versions doc = Some versions_dict →
       definitions doc = Some definitions_dict →
       __match_version_typedef helper domain_type filename fuel versions_dict =
         Some (Return name) →
       definitions_dict !! name = None →
       __get_version_typedef helper fuel domain_type filename doc =
         Some (Raise (cla_exception "WLSDPLY-12306" [domain_type; filename; name])))
  ∧ (∀ e,
       __get_version_typedef helper fuel domain_type filename doc = Some (Raise e) →
       is_ConfigError e = true).
Proof.
  unfold __get_version_typedef.
  split; [by intros ->|]. split; [by intros [vd ->] ->|].
  split; [|split].
  - intros name definition.
    destruct (versions doc) as [vd|]; [|done].
    destruct (definitions doc) as [defs|]; [|done].
    destruct (__match_version_typedef _ _ _ _ _) as [[n|e]|] eqn:Hmatch; simpl;
      [|done..].
    destruct (defs !! n) eqn:Hn; [|done].
    intros [= <- <-]. by exists vd, defs.
  - intros vd defs name -> -> -> Hnone. simpl. by rewrite Hnone.
  - intros e.
    destruct (versions doc) as [vd|]; [|by intros [= <-]].
    destruct (definitions doc) as [defs|]; [|by intros [= <-]].
    destruct (__match_version_typedef _ _ _ _ _) as [[n|e']|] eqn:Hmatch; simpl;
      [| |done].
    + destruct (defs !! n); [done|]. by intros [= <-].
    + intros [= <-].
      by apply (match_version_typedef_outcomes helper domain_type filename fuel vd).
Qed.
End VersionTypedef.

Lemma get_version_typedef_outcome_witness :
  __get_version_typedef (sample_helper "12.2.1.3") 0 "WLS" "WLS.json"
    {| versions := Some ∅; definitions := None; topologyProfile := None;
       discover_filters := None; system_elements := None |}
  = Some (Raise (cla_exception "WLSDPLY-12305" ["WLS"; "WLS.json"]))
  ∧ ∃ versions_dict definitions_dict,
      versions (sample_document minimal_definition) = Some versions_dict
      ∧ definitions (sample_document minimal_definition) = Some definitions_dict
      ∧ __match_version_typedef (sample_helper "12.2.1.3") "WLS" "WLS.json" 1
          versions_dict = Some (Return "WLS_12C")
      ∧ definitions_dict !! "WLS_12C" = Some minimal_definition.
Proof.
  split.
  - apply (get_version_typedef_outcome (sample_helper "12.2.1.3") "WLS" "WLS.json" 0);
      [by eexists|reflexivity].
  - apply (get_version_typedef_outcome (sample_helper "12.2.1.3") "WLS" "WLS.json" 1
             (sample_document minimal_definition)).
    vm_compute. reflexivity.
Defined.

Section Enumerations.
Variable helper : WebLogicHelper.
Variable TargetingType TopologyProfile : list string.
Variable filename : string.


(** X9: [_resolve_topology_profile].  What it returns is the
    [topologyProfile] key of the document as it stands, and a profile is
    returned only when it is a name of the enumeration and the WebLogic
    version supports topology profiles.  On a version that does not
    support them a document with the key fails with WLSDPLY-12314, whether
    or not the value is a name of the enumeration; on one that does, an
    unknown value fails with WLSDPLY-12315.  A document without the key
    never fails. *)
Theorem resolve_topology_profile_outcome (doc : TypedefDocument) :
  (∀ result,
     _resolve_topology_profile helper TopologyProfile filename doc = Return result →
     result = topologyProfile doc
     ∧ ∀ profile, result = Some profile →
                  profile ∈ TopologyProfile
                  ∧ is_topology_profile_supported helper = true)
  ∧ (∀ profile,
       topologyProfile doc = Some profile →
       is_topology_profile_supported helper = false →
       _resolve_topology_profile helper TopologyProfile filename doc =
         Raise (cla_exception "WLSDPLY-12314"
                  [profile; filename; get_weblogic_version helper]))
  ∧ (∀ profile,
       topologyProfile doc = Some profile →
       is_topology_profile_supported helper = true →
       profile ∉ TopologyProfile →
       _resolve_topology_profile helper TopologyProfile filename doc =
         Raise (cla_exception "WLSDPLY-12315" [profile; filename]))
  ∧ (topologyProfile doc = None →
     _resolve_topology_profile helper TopologyProfile filename doc = Return None).
Proof.
  unfold _resolve_topology_profile. split; [|split; [|split]].
  - intros result.
    destruct (topologyProfile doc) as [profile|]; [|by intros [= <-]].
    destruct (is_topology_profile_supported helper); [|done]. simpl.
    destruct (decide (profile ∈ TopologyProfile)); [|done].
    intros [= <-]. split; [done|]. by intros p [= <-].
  - by intros profile -> ->.
  - intros profile -> -> Hnot. simpl. by rewrite decide_False.
  - by intros ->.
Qed.
End Enumerations.


Lemma resolve_topology_profile_outcome_witness :
  _resolve_topology_profile legacy_helper sample_TopologyProfile "WLS.json"
    (profiled_document "Compact")
  = Raise (cla_exception "WLSDPLY-12314" ["Compact"; "WLS.json"; "10.3.6"])
  ∧ _resolve_topology_profile (sample_helper "12.2.1.3") sample_TopologyProfile
      "WLS.json" (profiled_document "Collapsed")
    = Raise (cla_exception "WLSDPLY-12315" ["Collapsed"; "WLS.json"])
  ∧ "Compact" ∈ sample_TopologyProfile.
Proof.
  split; [|split].
  - apply (resolve_topology_profile_outcome legacy_helper sample_TopologyProfile
             "WLS.json" (profiled_document "Compact")); reflexivity.
  - apply (resolve_topology_profile_outcome (sample_helper "12.2.1.3")
             sample_TopologyProfile "WLS.json" (profiled_document "Collapsed"));
      [reflexivity..|].
    compute_done.
  - destruct (resolve_topology_profile_outcome (sample_helper "12.2.1.3")
                sample_TopologyProfile "WLS.json" (profiled_document "Compact"))
      as [Hreturn _].
    destruct (Hreturn (Some "Compact") eq_refl) as [_ Hmember].
    apply (Hmember "Compact" eq_refl).
Defined.

(** ** The constructed object *)




Section Constructed.
Variable find_typedef_path : string → string.
Variable json_parse : string → ParseOutcome.
Variable helper : WebLogicHelper.
Variable TargetingType TopologyProfile : list string.
Variable iteritems : gmap string (list string) → list (string * list string).

Lemma init_inversion fuel program_name domain_type self :
  __init__ find_typedef_path json_parse helper TargetingType TopologyProfile
    iteritems fuel program_name domain_type = Some (Return self) →
  ∃ filename doc name definition targeting_type filters topology_profile,
    filename = find_typedef_path (domain_type ++ __domain_typedef_extension) ∧
    json_parse filename = Parsed doc
    ∧ __get_version_typedef helper fuel domain_type filename doc =
        Some (Return (name, definition))
    ∧ _resolve_targeting_type helper TargetingType filename definition =
        Return targeting_type
    ∧ match discover_filters doc with
      | Some given => Return given
      | None =>
          match system_elements doc with
          | Some elements =>
              _translate_system_elements program_name filename (iteritems elements)
          | None => Return ∅
          end
      end = Return filters
    ∧ _resolve_topology_profile helper TopologyProfile filename doc =
        Return topology_profile
    ∧ self =
        {| _program_name := program_name;
           _domain_type := domain_type;
           wls_helper := helper;
           _domain_typedef_filename := filename;
           _version_typedef_name := name;
           _paths_resolved := false;
           _model_context := None;
           _domain_typedef := definition;
           _targeting_type := targeting_type;
           _post_create_domain_script_dict := postCreateDomainScript definition;
           _discover_filters := filters;
           _topology_profile := topology_profile |}.
Proof.
  unfold __init__. intros Hinit.
  exists (find_typedef_path (domain_type ++ __domain_typedef_extension)).
  destruct (json_parse _) as [doc| |] eqn:Hparse; [|done..].
  unfold and_then in Hinit.
  destruct (__get_version_typedef _ _ _ _ _) as [[[name d]|]|] eqn:Hversion;
    [|done..].
  destruct (_resolve_targeting_type _ _ _ _) as [tt'|] eqn:Htarget; [|done].
  destruct (match discover_filters doc with Some _ => _ | None => _ end)
    as [filters|] eqn:Hfilters; [|done].
  destruct (_resolve_topology_profile _ _ _ _) as [tp|] eqn:Htopo; [|done].
  injection Hinit as <-. exists doc, name, d, tt', filters, tp.
  by repeat split.
Qed.

End Constructed.

(** ** The filters of the constructed object *)

Lemma translate_loop_size program_name filename items acc filters :
  NoDup items.*1 →
  (∀ key patterns new_key,
     (key, patterns) ∈ items → __key_mapping_table !! key = Some new_key →
     acc !! new_key = None) →
  _translate_system_elements_loop program_name filename items acc = Return filters →
  size filters = size acc + length items.
Proof.
  revert acc. induction items as [|[key value] items IH]; intros acc Hnodup Hfresh; simpl.
  - intros [= <-]. lia.
  - unfold _convert_system_elements_key_name at 1.
    destruct (__key_mapping_table !! key) as [mapped|] eqn:Hkey;
      [|by destruct (decide _)].
    intros Hrun. apply NoDup_cons in Hnodup as [Hnew Hnodup]. simpl in Hnew.
    assert (Hsize : size filters = size (<[mapped := value]> acc) + length items).
    { apply IH; [done| |done].
      intros k p nk Hk Hmap. rewrite lookup_insert_ne.
      - apply (Hfresh k p); [apply elem_of_cons; by right|done].
      - intros ->. pose proof (key_mapping_table_inj _ _ _ Hkey Hmap) as ->.
        apply Hnew. apply list_elem_of_fmap. by exists (k, p). }
    rewrite Hsize, map_size_insert_None; [lia|].
    apply (Hfresh key value); [apply elem_of_cons; by left|done].
Qed.

Lemma translate_returns_known program_name filename items filters :
  _translate_system_elements program_name filename items = Return filters →
  ∀ key patterns, (key, patterns) ∈ items → is_Some (__key_mapping_table !! key).
Proof.
  intros Hrun key patterns Hk.
  destruct (__key_mapping_table !! key) as [new_key|] eqn:Hkey; [by eexists|].
  destruct (translate_loop_raises program_name filename items ∅)
    as (u & p & _ & _ & Hraise); [by exists key, patterns|].
  unfold _translate_system_elements in Hrun. congruence.
Qed.

(** X11: the translation of legacy filters loses nothing.  Whatever the
    order in which the dictionary yields its items, a translation that
    returns has found every key in the lookup table and has as many
    entries as the dictionary: no two legacy keys end on one folder path. *)
Theorem translate_system_elements_keeps_every_entry
    (program_name filename : string)
    (system_elements_dict filters : gmap string (list string))
    (items : list (string * list string)) :
  items ≡ₚ map_to_list system_elements_dict →
  _translate_system_elements program_name filename items = Return filters →
  (∀ key, is_Some (system_elements_dict !! key) →
          is_Some (__key_mapping_table !! key))
  ∧ size filters = size system_elements_dict.
Proof.
  intros Hitems Hrun. split.
  - intros key [patterns Hkey].
    apply (translate_returns_known _ _ _ _ Hrun key patterns).
    rewrite Hitems. by apply elem_of_map_to_list.
  - rewrite (translate_loop_size program_name filename items ∅ filters).
    + rewrite map_size_empty, Hitems. simpl.
      by rewrite length_map_to_list.
    + rewrite Hitems. apply NoDup_fst_map_to_list.
    + intros. apply lookup_empty.
    + exact Hrun.
Qed.

Lemma translate_system_elements_keeps_every_entry_witness :
  ∃ filters,
    _translate_system_elements CREATE_DOMAIN "WLS.json"
      (map_to_list sample_system_elements) = Return filters
    ∧ size filters = size sample_system_elements.
Proof.
  eexists. split; [vm_compute; reflexivity|].
  eapply (translate_system_elements_keeps_every_entry CREATE_DOMAIN "WLS.json"
            sample_system_elements _ (map_to_list sample_system_elements)
            (reflexivity _)).
  vm_compute. reflexivity.
Defined.

Section ConstructedFilters.
Variable find_typedef_path : string → string.
Variable json_parse : string → ParseOutcome.
Variable helper : WebLogicHelper.
Variable TargetingType TopologyProfile : list string.
Variable iteritems : gmap string (list string) → list (string * list string).

(** X12: where the filters of a constructed object come from.  With a
    [discover-filters] key in the file they are that table, whatever
    [system-elements] holds.  With neither key the table is empty and
    [is_filtered] returns false for every location and name.  With
    [system-elements] alone, every legacy key is in the lookup table, a
    folder path is a key of the filters exactly when it is the canonical
    path of a legacy key of the file, with the pattern list of that key,
    and a call of [is_filtered] without a name returns true exactly for
    the canonical paths of the legacy keys. *)
Theorem init_discover_filters
    (fuel : nat) (program_name domain_type : string)
    (self : DomainTypedef) (doc : TypedefDocument) :
  __init__ find_typedef_path json_parse helper TargetingType TopologyProfile
    iteritems fuel program_name domain_type = Some (Return self) →
  json_parse (_domain_typedef_filename self) = Parsed doc →
  (∀ given, discover_filters doc = Some given → _discover_filters self = given)
  ∧ (discover_filters doc = None → system_elements doc = None →
     _discover_filters self = ∅
     ∧ ∀ re_match location name,
         is_filtered re_match location name self = (Return false, self))
  ∧ (∀ elements,
       discover_filters doc = None → system_elements doc = Some elements →
       iteritems elements ≡ₚ map_to_list elements →
       (∀ key, is_Some (elements !! key) → is_Some (__key_mapping_table !! key))
       ∧ (∀ path patterns,
            _discover_filters self !! path = Some patterns ↔
            ∃ key, __key_mapping_table !! key = Some path
                   ∧ elements !! key = Some patterns)
       ∧ (∀ re_match location,
            outcome_of (is_filtered re_match location None) self = Return true ↔
            ∃ key, __key_mapping_table !! key = Some (get_folder_path location)
                   ∧ is_Some (elements !! key))).
Proof.
  intros Hinit Hparse.
  destruct (init_inversion _ _ _ _ _ _ _ _ _ _ Hinit)
    as (filename & doc' & vname & d & tt' & filters & tp
        & Hfilename & Hparse' & _ & _ & Hfilters & _ & ->).
  simpl in *. rewrite Hparse' in Hparse. injection Hparse as ->.
  split; [|split].
  - intros given Hgiven. rewrite Hgiven in Hfilters. by injection Hfilters.
  - intros Hnone Hnone'. rewrite Hnone, Hnone' in Hfilters.
    injection Hfilters as <-. split; [done|].
    intros re_match location name. unfold is_filtered, bind, get_self. simpl.
    by rewrite lookup_empty.
  - intros elements Hnone Helements Hitems.
    rewrite Hnone, Helements in Hfilters.
    assert (Hin : ∀ key patterns, (key, patterns) ∈ iteritems elements ↔
                                  elements !! key = Some patterns).
    { intros key patterns. rewrite Hitems. apply elem_of_map_to_list. }
    assert (Hlookup : ∀ path patterns,
              filters !! path = Some patterns ↔
              ∃ key, __key_mapping_table !! key = Some path
                     ∧ elements !! key = Some patterns).
    { intros path patterns.
      rewrite (translate_loop_lookup program_name filename (iteritems elements) ∅
                 filters); [| |exact Hfilters].
      - split.
        + intros [(key & Hk & Hmap)|[_ Hempty]];
            [|by rewrite lookup_empty in Hempty].
          exists key. by rewrite <-Hin.
        + intros (key & Hmap & Hk). left. exists key. by rewrite Hin.
      - rewrite Hitems. apply NoDup_fst_map_to_list. }
    split; [|split; [exact Hlookup|]].
    + intros key [patterns Hkey].
      apply (translate_returns_known _ _ _ _ Hfilters key patterns). by rewrite Hin.
    + intros re_match location. unfold outcome_of, is_filtered, bind, get_self. simpl.
      destruct (filters !! get_folder_path location) as [patterns|] eqn:Hpath; simpl.
      * split; [|done]. intros _.
        apply Hlookup in Hpath as (key & Hmap & Hk). exists key. split; [done|by eexists].
      * split; [done|]. intros (key & Hmap & [patterns Hk]).
        assert (Hsome : filters !! get_folder_path location = Some patterns)
          by (apply Hlookup; by exists key).
        congruence.
Qed.
End ConstructedFilters.

Lemma init_discover_filters_witness :
  _discover_filters (sample_object sample_definition) !! "/JDBCSystemResource"
  = Some ["^MyDS.*"].
Proof.
  destruct (init_discover_filters sample_find_typedef_path
              (sample_json_parse sample_definition) (sample_helper "12.2.1.3")
              sample_TargetingType sample_TopologyProfile map_to_list
              1 CREATE_DOMAIN "WLS" (sample_object sample_definition)
              (sample_document sample_definition)) as (_ & _ & Hlegacy).
  - vm_compute. reflexivity.
  - reflexivity.
  - destruct (Hlegacy (list_to_map [("datasources", ["^MyDS.*"])]) eq_refl eq_refl
                (reflexivity _)) as (_ & Hlookup & _).
    apply Hlookup. exists "datasources". split; reflexivity.
Defined.

(** X13: [discover-filters] takes precedence over [system-elements].  When
    the file has a [discover-filters] key, the constructor does the same
    with any [system-elements] key as without one: it returns the same
    object or raises the same exception, so a legacy key that the lookup
    table does not have then goes unnoticed. *)
Theorem discover_filters_take_precedence
    (find_typedef_path : string → string) (json_parse : string → ParseOutcome)
    (helper : WebLogicHelper) (TargetingType TopologyProfile : list string)
    (iteritems : gmap string (list string) → list (string * list string))
    (fuel : nat) (program_name domain_type : string)
    (doc : TypedefDocument) (elements : option (gmap string (list string))) :
  json_parse (find_typedef_path (domain_type ++ __domain_typedef_extension)) =
    Parsed doc →
  is_Some (discover_filters doc) →
  __init__ find_typedef_path
    (λ filename, parse_with_system_elements elements (json_parse filename))
    helper TargetingType TopologyProfile iteritems fuel program_name domain_type
  = __init__ find_typedef_path json_parse helper TargetingType TopologyProfile
      iteritems fuel program_name domain_type.
Proof.
  intros Hparse [given Hgiven]. unfold __init__. rewrite Hparse. simpl.
  unfold __get_version_typedef, _resolve_topology_profile. simpl.
  by rewrite Hgiven.
Qed.

Lemma discover_filters_take_precedence_witness :
  system_elements (profiled_document "Compact") = Some unknown_system_elements
  ∧ __init__ sample_find_typedef_path (λ _, Parsed (profiled_document "Compact"))
      (sample_helper "12.2.1.3") sample_TargetingType sample_TopologyProfile
      map_to_list 1 DISCOVER_DOMAIN "WLS"
    = __init__ sample_find_typedef_path
        (λ filename, parse_with_system_elements None
                       ((λ _, Parsed (profiled_document "Compact")) filename))
        (sample_helper "12.2.1.3") sample_TargetingType sample_TopologyProfile
        map_to_list 1 DISCOVER_DOMAIN "WLS".
Proof.
  split; [reflexivity|]. symmetry.
  apply (discover_filters_take_precedence sample_find_typedef_path
           (λ _, Parsed (profiled_document "Compact")) (sample_helper "12.2.1.3")
           sample_TargetingType sample_TopologyProfile map_to_list 1 DISCOVER_DOMAIN
           "WLS" (profiled_document "Compact") None).
  - reflexivity.
  - by eexists.
Defined.

Example init_ignores_unknown_legacy_key :
  ∃ self,
    __init__ sample_find_typedef_path (λ _, Parsed (profiled_document "Compact"))
      (sample_helper "12.2.1.3") sample_TargetingType sample_TopologyProfile
      map_to_list 1 DISCOVER_DOMAIN "WLS" = Some (Return self)
    ∧ _discover_filters self = {[ "/Application" := [] ]}
    ∧ _topology_profile self = Some "Compact".
Proof. eexists. split; [vm_compute; reflexivity|]. split; reflexivity. Qed.


(** ** The JRF tests *)

Section Jrf.
Variable re_match : string → string → option bool.

Lemma any_template_matches_compiled pattern templates :
  (∀ t, t ∈ templates → is_Some (re_match pattern t)) →
  ∃ b, any_template_matches re_match pattern templates = Return b
       ∧ (b = true ↔ ∃ t, t ∈ templates ∧ re_match pattern t = Some true).
Proof.
  induction templates as [|t templates IH]; intros Hcompiled; simpl.
  - exists false. split; [done|]. split; [done|].
    intros (t & Ht & _). by apply elem_of_nil in Ht.
  - destruct (Hcompiled t) as [[|] Ht]; [apply elem_of_cons; by left| |]; rewrite Ht.
    + exists true. split; [done|]. split; [|done].
      intros _. exists t. split; [apply elem_of_cons; by left|done].
    + destruct IH as (b & Hrun & Hb).
      { intros q Hq. apply Hcompiled. apply elem_of_cons. by right. }
      exists b. split; [done|]. rewrite Hb. split.
      * intros (q & Hq & Hmatch). exists q. split; [apply elem_of_cons; by right|done].
      * intros (q & Hq & Hmatch). apply elem_of_cons in Hq as [->|Hq]; [congruence|].
        by exists q.
Qed.

Lemma get_extension_templates_returned self self' templates :
  get_extension_templates self = (Return templates, self') →
  _paths_resolved self' = true
  ∧ extensionTemplates (_domain_typedef self') = Some templates.
Proof.
  unfold get_extension_templates, bind.
  destruct (__resolve_paths self) as [[[]|e] s1] eqn:Hrun; [|done].
  unfold get_self, getitem.
  destruct (extensionTemplates (_domain_typedef s1)) as [l|] eqn:Hl; [|done].
  intros [= <- <-]. split; [by eapply resolve_paths_returns|done].
Qed.

(** X14: [is_jrf_domain_type].  Let the extension templates and the
    server groups of the object be resolved and both patterns compile.
    The method returns true exactly when the first extension template is
    not the Restricted JRF template and either some extension template
    matches the JRF pattern or JRF-MAN-SVR is among the server groups to
    target.  Only the first template can make it a Restricted JRF domain:
    the Restricted JRF template further down the list does not.  The
    object is left resolved. *)
Theorem is_jrf_domain_type_outcome
    (self self' : DomainTypedef) (templates groups : list string) :
  get_extension_templates self = (Return templates, self') →
  serverGroupsToTarget (_domain_typedef self') = Some groups →
  (∀ t, t ∈ templates →
        is_Some (re_match RESTRICTED_JRF_TEMPLATE_REGEX t)
        ∧ is_Some (re_match JRF_TEMPLATE_REGEX t)) →
  after (is_jrf_domain_type re_match) self = self'
  ∧ ∃ b, outcome_of (is_jrf_domain_type re_match) self = Return b
         ∧ (b = true ↔
            head templates ≫= re_match RESTRICTED_JRF_TEMPLATE_REGEX ≠ Some true
            ∧ ((∃ t, t ∈ templates ∧ re_match JRF_TEMPLATE_REGEX t = Some true)
               ∨ JRF_SERVER_GROUP ∈ groups)).
Proof.
  intros Hget Hgroups Hcompiled.
  destruct (get_extension_templates_returned _ _ _ Hget) as [Hres Htemplates].
  assert (Hget' : get_extension_templates self' = (Return templates, self')).
  { unfold get_extension_templates.
    rewrite (resolving_getter_resolved "extensionTemplates" extensionTemplates
               self' Hres). by rewrite Htemplates. }
  assert (Hgroups' : get_server_groups_to_target self' = (Return groups, self')).
  { unfold get_server_groups_to_target.
    rewrite (resolving_getter_resolved "serverGroupsToTarget" serverGroupsToTarget
               self' Hres). by rewrite Hgroups. }
  destruct (any_template_matches_compiled JRF_TEMPLATE_REGEX templates)
    as (jrf & Hany & Hjrf); [intros t Ht; by apply Hcompiled|].
  assert (Hrest : ∀ restricted : option bool, restricted ≠ Some true →
    (match restricted with
     | Some true => ret false
     | _ =>
         let! templates := get_extension_templates in
         match any_template_matches re_match JRF_TEMPLATE_REGEX templates with
         | Raise e => raise e
         | Return true => ret true
         | Return false =>
             let! groups := get_server_groups_to_target in
             if decide (JRF_SERVER_GROUP ∈ groups) then ret true else ret false
         end
     end) self'
    = (Return (jrf || bool_decide (JRF_SERVER_GROUP ∈ groups)), self')).
  { intros restricted Hnot.
    assert (Hbody :
      (let! templates := get_extension_templates in
       match any_template_matches re_match JRF_TEMPLATE_REGEX templates with
       | Raise e => raise e
       | Return true => ret true
       | Return false =>
           let! groups := get_server_groups_to_target in
           if decide (JRF_SERVER_GROUP ∈ groups) then ret true else ret false
       end) self'
      = (Return (jrf || bool_decide (JRF_SERVER_GROUP ∈ groups)), self')).
    { unfold bind at 1. rewrite Hget', Hany. destruct jrf; [done|].
      unfold bind. rewrite Hgroups'. simpl.
      by destruct (decide (JRF_SERVER_GROUP ∈ groups)) as [Hin|Hin];
        [rewrite bool_decide_true|rewrite bool_decide_false]. }
    by destruct restricted as [[|]|]. }
  assert (Hrun : ∃ b,
    is_jrf_domain_type re_match self = (Return b, self')
    ∧ (b = true ↔
       head templates ≫= re_match RESTRICTED_JRF_TEMPLATE_REGEX ≠ Some true
       ∧ ((∃ t, t ∈ templates ∧ re_match JRF_TEMPLATE_REGEX t = Some true)
          ∨ JRF_SERVER_GROUP ∈ groups))).
  { unfold is_jrf_domain_type. unfold bind at 1.
    rewrite (is_restricted_jrf_domain_type_cases re_match _ _ _ Hget).
    destruct templates as [|first rest]; simpl.
    - rewrite (Hrest None) by done.
      eexists. split; [reflexivity|].
      rewrite orb_true_iff, Hjrf, bool_decide_eq_true.
      split; [intros H; by split|by intros [_ H]].
    - destruct (Hcompiled first) as [[restricted Hr] _];
        [apply elem_of_cons; by left|].
      rewrite Hr. destruct restricted.
      + exists false. split; [reflexivity|]. split; [done|by intros [Hne _]].
      + rewrite (Hrest (Some false)) by done.
        eexists. split; [reflexivity|].
        rewrite orb_true_iff, Hjrf, bool_decide_eq_true.
        split; [intros H; by split|by intros [_ H]]. }
  destruct Hrun as (b & Hrun & Hb).
  unfold after, outcome_of. rewrite Hrun. split; [done|]. by exists b.
Qed.
End Jrf.

Lemma is_jrf_domain_type_outcome_witness :
  let self :=
    with_model_context (Some sample_model_context) (sample_object sample_definition) in
  "Oracle Restricted JRF" ∈
    ["/u01/oracle/oracle_common/common/templates/wls/oracle.jrf_template.jar";
     "Oracle Restricted JRF"]
  ∧ outcome_of (is_jrf_domain_type class_re_match) self = Return true.
Proof.
  intros self. split; [compute_done|].
  destruct (is_jrf_domain_type_outcome class_re_match self
              (after get_extension_templates self)
              ["/u01/oracle/oracle_common/common/templates/wls/oracle.jrf_template.jar";
               "Oracle Restricted JRF"] ["JRF-MAN-SVR"] eq_refl eq_refl)
    as [_ (b & Hrun & Hb)].
  - intros t Ht.
    repeat (apply elem_of_cons in Ht as [->|Ht]; [split; by eexists|]).
    by apply elem_of_nil in Ht.
  - rewrite Hrun. f_equal. apply Hb. split; [discriminate|].
    right. compute_done.
Defined.

(** ** Extension templates, RCU schemas and the model context *)

(** X15: [has_extension_templates].  When path resolution raises, the
    method raises the same exception and leaves the object as it was.
    When it resolves the paths, the method returns true exactly when the
    definition had an [extensionTemplates] key with a non-empty list: a
    missing key counts as no templates.  On a resolved object it tells
    whether the resolved list is non-empty. *)
Theorem has_extension_templates_outcome (self : DomainTypedef) :
  (∀ e, __resolve_paths self = (Raise e, self) →
        has_extension_templates self = (Raise e, self))
  ∧ (∀ self', _paths_resolved self = false →
              __resolve_paths self = (Return tt, self') →
              has_extension_templates self =
                (Return match extensionTemplates (_domain_typedef self) with
                        | Some (_ :: _) => true
                        | Some [] | None => false
                        end, self'))
  ∧ (∀ templates, _paths_resolved self = true →
                  extensionTemplates (_domain_typedef self) = Some templates →
                  has_extension_templates self =
                    (Return (bool_decide (templates ≠ [])), self)).
Proof.
  unfold has_extension_templates, get_extension_templates.
  split; [|split].
  - intros e Hraise. unfold bind. by rewrite Hraise.
  - intros self' Hres Hrun.
    destruct (resolve_paths_cases self)
      as [Hsame|[(e & Hraise & _)|(c & b & _ & _ & _ & d & Hrun' & _ & Hx & _)]].
    + apply resolve_paths_returns in Hsame. congruence.
    + congruence.
    + rewrite Hrun' in Hrun. injection Hrun as <-.
      unfold bind. rewrite Hrun'. unfold get_self, getitem. simpl. rewrite Hx. simpl.
      by destruct (extensionTemplates (_domain_typedef self)) as [[|? ?]|].
  - intros templates Hres Htemplates. unfold bind at 1.
    rewrite (resolving_getter_resolved "extensionTemplates" extensionTemplates
               self Hres), Htemplates. simpl.
    by destruct templates.
Qed.

Lemma has_extension_templates_outcome_witness :
  has_extension_templates
    (with_model_context (Some sample_model_context) (sample_object minimal_definition))
  = (Return false,
     after __resolve_paths
       (with_model_context (Some sample_model_context)
          (sample_object minimal_definition))).
Proof.
  destruct (has_extension_templates_outcome
              (with_model_context (Some sample_model_context)
                 (sample_object minimal_definition))) as (_ & Hresolves & _).
  apply (Hresolves _ eq_refl eq_refl).
Defined.

(** X16: the two RCU accessors agree, and path resolution supplies the
    missing key.  Whenever [get_rcu_schemas] returns a list,
    [requires_rcu] returns whether that list is non-empty.  After a path
    resolution of an unresolved object, [get_rcu_schemas] returns the list
    the definition had, or the empty list when it had no [rcuSchemas]
    key. *)
Theorem rcu_schemas_after_resolution (self : DomainTypedef) :
  (∀ schemas, outcome_of get_rcu_schemas self = Return schemas →
              outcome_of requires_rcu self = Return (bool_decide (schemas ≠ [])))
  ∧ (∀ self', _paths_resolved self = false →
              __resolve_paths self = (Return tt, self') →
              get_rcu_schemas self' =
                (Return (default [] (rcuSchemas (_domain_typedef self))), self')).
Proof.
  split.
  - intros schemas. unfold outcome_of.
    rewrite get_rcu_schemas_cases, requires_rcu_cases. simpl.
    destruct (rcuSchemas (_domain_typedef self)) as [l|]; [|done].
    intros [= <-]. by destruct l.
  - intros self' Hres Hrun.
    destruct (resolve_paths_cases self)
      as [Hsame|[(e & Hraise & _)
                |(c & b & _ & _ & _ & d & Hrun' & _ & _ & _ & _ & _ & Hr & _)]].
    + apply resolve_paths_returns in Hsame. congruence.
    + congruence.
    + rewrite Hrun' in Hrun. injection Hrun as <-.
      rewrite get_rcu_schemas_cases. simpl. by rewrite Hr.
Qed.

Lemma rcu_schemas_after_resolution_witness :
  let self :=
    with_model_context (Some sample_model_context) (sample_object minimal_definition) in
  get_rcu_schemas (after __resolve_paths self) = (Return [], after __resolve_paths self).
Proof.
  intros self.
  destruct (rcu_schemas_after_resolution self) as [_ Hresolved].
  apply (Hresolved _ eq_refl eq_refl).
Defined.

(** X17: [get_post_create_domain_script].  The method never changes the
    object and never resolves paths.  Without a post-create section it
    returns None, model context or not.  With a section and no model
    context it raises the ConfigError WLSDPLY-12302, also when the section
    has no script for the platform.  With both it returns the token
    substitution of the script of the platform, [windowsScript] on Windows
    and [unixScript] elsewhere, and None when the section has no such key,
    whatever script it has for the other platform. *)
Theorem get_post_create_domain_script_outcome
    (IS_WINDOWS : bool) (self : DomainTypedef) :
  after (get_post_create_domain_script IS_WINDOWS) self = self
  ∧ (_post_create_domain_script_dict self = None →
     outcome_of (get_post_create_domain_script IS_WINDOWS) self = Return None)
  ∧ (is_Some (_post_create_domain_script_dict self) →
     _model_context self = None →
     outcome_of (get_post_create_domain_script IS_WINDOWS) self =
       Raise (cla_exception "WLSDPLY-12302" []))
  ∧ (∀ script_dict model_context,
       _post_create_domain_script_dict self = Some script_dict →
       _model_context self = Some model_context →
       outcome_of (get_post_create_domain_script IS_WINDOWS) self =
         Return (replace_token_string model_context <$>
                 script_dict !! (if IS_WINDOWS then "windowsScript" else "unixScript"))).
Proof.
  unfold after, outcome_of, get_post_create_domain_script, bind, get_self.
  split; [|split; [|split]].
  - destruct (_post_create_domain_script_dict self) as [script_dict|]; [|done].
    destruct (_model_context self) as [model_context|]; [|done].
    by destruct (script_dict !! _).
  - by intros ->.
  - by intros [script_dict ->] ->.
  - intros script_dict model_context -> ->.
    by destruct (script_dict !! _).
Qed.

Lemma get_post_create_domain_script_outcome_witness :
  sample_init jrf_definition 1 = Some (Return jrf_object)
  ∧ outcome_of (get_post_create_domain_script false) jrf_object =
      Raise (cla_exception "WLSDPLY-12302" [])
  ∧ outcome_of (get_post_create_domain_script false)
      (with_model_context (Some sample_model_context) jrf_object) =
      Return (Some "/u01/oracle/bin/after_create.sh")
  ∧ outcome_of (get_post_create_domain_script true)
      (with_model_context (Some sample_model_context) jrf_object) = Return None.
Proof.
  split; [vm_compute; reflexivity|].
  split; [|split].
  - apply get_post_create_domain_script_outcome; [by eexists|reflexivity].
  - destruct (get_post_create_domain_script_outcome false
                (with_model_context (Some sample_model_context) jrf_object))
      as (_ & _ & _ & Hscript).
    apply (Hscript _ sample_model_context eq_refl eq_refl).
  - destruct (get_post_create_domain_script_outcome true
                (with_model_context (Some sample_model_context) jrf_object))
      as (_ & _ & _ & Hscript).
    apply (Hscript _ sample_model_context eq_refl eq_refl).
Defined.

(** X18: the first model context settles the paths.  On an unresolved
    object without a model context whose definition has a base template,
    [set_model_context] returns, stores the context and resolves the
    paths; from then on [get_base_template] returns the substitution of
    that context, also after a later [set_model_context] with another
    context. *)
Theorem set_model_context_first_wins
    (self : DomainTypedef) (model_context : ModelContext) (base_template : string) :
  _model_context self = None →
  _paths_resolved self = false →
  baseTemplate (_domain_typedef self) = Some base_template →
  ∃ self',
    set_model_context model_context self = (Return tt, self')
    ∧ _model_context self' = Some model_context
    ∧ _paths_resolved self' = true
    ∧ get_base_template self' =
        (Return (replace_token_string model_context base_template), self')
    ∧ ∀ later,
        (set_model_context later;;; get_base_template) self' =
          (Return (replace_token_string model_context base_template), self').
Proof.
  intros Hctx Hres Hbase.
  unfold set_model_context, bind at 1. unfold get_self at 1. rewrite Hctx.
  unfold bind at 1, put_self.
  set (stored := with_model_context (Some model_context) self).
  destruct (resolve_paths_cases stored)
    as [Hsame|[(e & Hraise & _ & _)|(c & b & _ & Hc & Hb & d & Hrun & Hd & _)]].
  - apply resolve_paths_returns in Hsame. simpl in Hsame. congruence.
  - unfold __resolve_paths in Hraise. simpl in Hraise.
    rewrite Hres, Hbase in Hraise. done.
  - simpl in Hc, Hb. injection Hc as <-. rewrite Hbase in Hb. injection Hb as <-.
    exists (with_resolved d stored). rewrite Hrun.
    assert (Hget : get_base_template (with_resolved d stored) =
                   (Return (replace_token_string model_context base_template),
                    with_resolved d stored)).
    { unfold get_base_template.
      rewrite (resolving_getter_resolved "baseTemplate" baseTemplate
                 (with_resolved d stored) eq_refl).
      simpl. by rewrite Hd. }
    repeat split; done.
Qed.

Lemma set_model_context_first_wins_witness :
  ∃ self',
    set_model_context sample_model_context (sample_object sample_definition) =
      (Return tt, self')
    ∧ (set_model_context other_model_context;;; get_base_template) self' =
        (Return "/u01/oracle/wlserver/common/templates/wls/wls.jar", self').
Proof.
  destruct (set_model_context_first_wins (sample_object sample_definition)
              sample_model_context "@@ORACLE_HOME@@/wlserver/common/templates/wls/wls.jar"
              eq_refl eq_refl eq_refl) as (self' & Hset & _ & _ & _ & Hlater).
  exists self'. split; [exact Hset|]. apply (Hlater other_model_context).
Defined.

(** ** The exceptions of the class *)

Lemma translate_loop_raises_ConfigError program_name filename items acc e :
  _translate_system_elements_loop program_name filename items acc = Raise e →
  is_ConfigError e = true.
Proof.
  revert acc. induction items as [|[key value] items IH]; intros acc; simpl; [done|].
  unfold _convert_system_elements_key_name at 1.
  destruct (__key_mapping_table !! key); [by apply IH|].
  destruct (decide _); by intros [= <-].
Qed.

(** X19: the constructor raises nothing but ConfigErrors: whatever the
    file, the helper and the enumerations are, an exception that escapes
    [__init__] is one that the tool built for a message key, never a
    [KeyError]. *)
Theorem init_raises_only_ConfigError
    (find_typedef_path : string → string) (json_parse : string → ParseOutcome)
    (helper : WebLogicHelper) (TargetingType TopologyProfile : list string)
    (iteritems : gmap string (list string) → list (string * list string))
    (fuel : nat) (program_name domain_type : string) (e : PyException) :
  __init__ find_typedef_path json_parse helper TargetingType TopologyProfile
    iteritems fuel program_name domain_type = Some (Raise e) →
  is_ConfigError e = true.
Proof.
  unfold __init__.
  destruct (json_parse _) as [doc| |]; [|by intros [= <-]..].
  unfold and_then.
  destruct (__get_version_typedef _ _ _ _ _) as [[[name d]|e']|] eqn:Hversion;
    [| |done].
  - destruct (_resolve_targeting_type _ _ _ _) as [tt'|e'] eqn:Htarget.
    + destruct (match discover_filters doc with Some _ => _ | None => _ end)
        as [filters|e'] eqn:Hfilters.
      * destruct (_resolve_topology_profile _ _ _ _) as [tp|e'] eqn:Htopo; [done|].
        intros [= <-]. revert Htopo. unfold _resolve_topology_profile.
        destruct (topologyProfile doc) as [p|]; [|done].
        destruct (negb _); [by intros [= <-]|].
        destruct (decide _); [done|by intros [= <-]].
      * intros [= <-].
        destruct (discover_filters doc); [done|].
        destruct (system_elements doc); [|done].
        by eapply translate_loop_raises_ConfigError.
    + intros [= <-]. revert Htarget. unfold _resolve_targeting_type.
      destruct (targeting d) as [t|]; [|done].
      destruct (is_set_server_groups_supported helper); [by intros [= <-]|].
      destruct (decide _); [done|by intros [= <-]].
  - intros [= <-]. revert Hversion. unfold __get_version_typedef.
    destruct (versions doc) as [vd|]; [|by intros [= <-]].
    destruct (definitions doc) as [defs|]; [|by intros [= <-]].
    destruct (__match_version_typedef _ _ _ _ _) as [[n|e'']|] eqn:Hmatch; simpl;
      [| |done].
    + destruct (defs !! n); [done|]. by intros [= <-].
    + intros [= <-].
      by apply (match_version_typedef_outcomes helper domain_type
                  (find_typedef_path (domain_type ++ __domain_typedef_extension))
                  fuel vd).
Qed.

Lemma init_raises_only_ConfigError_witness :
  __init__ sample_find_typedef_path (sample_json_parse sample_definition)
    (sample_helper "12.2.1.3") sample_TargetingType sample_TopologyProfile
    map_to_list 1 CREATE_DOMAIN "JRF"
  = Some (Raise (cla_exception "WLSDPLY-12300"
                   ["createDomain"; "JRF"; "/u01/wdt/lib/typedefs/JRF.json";
                    "file does not exist"]))
  ∧ is_ConfigError
      (cla_exception "WLSDPLY-12300"
         ["createDomain"; "JRF"; "/u01/wdt/lib/typedefs/JRF.json";
          "file does not exist"]) = true.
Proof.
  assert (Hinit :
    __init__ sample_find_typedef_path (sample_json_parse sample_definition)
      (sample_helper "12.2.1.3") sample_TargetingType sample_TopologyProfile
      map_to_list 1 CREATE_DOMAIN "JRF"
    = Some (Raise (cla_exception "WLSDPLY-12300"
                     ["createDomain"; "JRF"; "/u01/wdt/lib/typedefs/JRF.json";
                      "file does not exist"]))) by (vm_compute; reflexivity).
  split; [exact Hinit|].
  exact (init_raises_only_ConfigError _ _ _ _ _ _ _ _ _ _ Hinit).
Defined.

Lemma raises_allowed_ret {A} (a : A) : raises_allowed (ret a).
Proof. by intros self Hkeys. Qed.

Lemma raises_allowed_get_self : raises_allowed get_self.
Proof. by intros self Hkeys. Qed.

Lemma raises_allowed_raise {A} e :
  is_ConfigError e = true ∨ (∃ pattern, e = ReError pattern) →
  raises_allowed (@raise A e).
Proof. intros He self Hkeys. split; [done|]. by intros e' [= <-]. Qed.

Lemma raises_allowed_bind {A B} (m : M A) (k : A → M B) :
  raises_allowed m → (∀ a, raises_allowed (k a)) → raises_allowed (bind m k).
Proof.
  intros Hm Hk self Hkeys. destruct (Hm self Hkeys) as [Hkeys' Hraise].
  unfold after, outcome_of, bind in *.
  destruct (m self) as [[a|e] self1]; simpl in *.
  - exact (Hk a self1 Hkeys').
  - split; [exact Hkeys'|]. intros e0 [= <-]. by apply Hraise.
Qed.

Lemma raises_allowed_resolve_paths : raises_allowed __resolve_paths.
Proof.
  intros self Hkeys. split; [by apply resolve_paths_keys_present|].
  intros e. unfold outcome_of.
  destruct (resolve_paths_cases self)
    as [->|[(e' & -> & He & _)|(c & b & _ & _ & _ & d & -> & _)]]; [done| |done].
  intros [= <-]. by left.
Qed.

Lemma raises_allowed_getter {A} key (field : DefinitionRecord → option A) :
  (∀ self, keys_present self → _paths_resolved self = true →
           is_Some (field (_domain_typedef self))) →
  raises_allowed
    (__resolve_paths;;;
     let! self := get_self in getitem key (field (_domain_typedef self))).
Proof.
  intros Hfield self Hkeys.
  destruct (raises_allowed_resolve_paths self Hkeys) as [Hkeys' Hraise].
  unfold after, outcome_of, bind in *.
  destruct (__resolve_paths self) as [[[]|e] self1] eqn:Hrun; simpl in *.
  - unfold get_self, getitem.
    destruct (Hfield self1 Hkeys' (resolve_paths_returns _ _ Hrun)) as [a ->].
    by split.
  - split; [done|]. intros e0 [= <-]. by apply Hraise.
Qed.

Lemma raises_allowed_set_model_context model_context :
  raises_allowed (set_model_context model_context).
Proof.
  intros self Hkeys. unfold after, outcome_of, set_model_context, bind, get_self.
  destruct (_model_context self); [by split|]. simpl.
  by apply (raises_allowed_resolve_paths (with_model_context _ self)).
Qed.

Lemma any_template_matches_raises re_match pattern templates e :
  any_template_matches re_match pattern templates = Raise e → e = ReError pattern.
Proof.
  induction templates as [|t templates IH]; simpl; [done|].
  destruct (re_match pattern t) as [[|]|]; [done|done|by intros [= <-]].
Qed.

Lemma is_filtered_patterns_raises re_match patterns name e :
  is_filtered_patterns re_match patterns name = Raise e →
  ∃ pattern, e = ReError pattern.
Proof.
  induction patterns as [|p patterns IH]; simpl; [done|].
  destruct (re_match p name) as [[|]|]; [done|done|]. intros [= <-]. by eexists.
Qed.

Ltac allowed_exception :=
  first
    [ left; reflexivity
    | right; eexists; reflexivity
    | right; eexists; eapply any_template_matches_raises; eassumption
    | right; eapply is_filtered_patterns_raises; eassumption ].

Ltac present_key :=
  let s := fresh "s" in
  let Hkeys := fresh "Hkeys" in
  let Hres := fresh "Hres" in
  intros s Hkeys Hres; destruct (Hkeys Hres) as (?&?&?&?&?&?); assumption.

Ltac allowed :=
  repeat first
    [ apply raises_allowed_ret | apply raises_allowed_get_self
    | apply raises_allowed_set_model_context
    | apply raises_allowed_getter; [present_key]
    | apply raises_allowed_raise; [allowed_exception]
    | apply raises_allowed_bind; [|intros ?]
    | match goal with
      | |- raises_allowed (match ?x with _ => _ end) => destruct x eqn:?
      end ].

Lemma public_method_raises_allowed
    (re_match : string → string → option bool) (IS_WINDOWS : bool)
    {A} (m : M A) :
  public_method re_match IS_WINDOWS m →
  raises_allowed m
  ∨ ∀ self e, outcome_of m self = Raise e →
              e = KeyError "rcuSchemas" ∧ rcuSchemas (_domain_typedef self) = None.
Proof.
  destruct 1;
    try (left;
         unfold get_domain_type, get_topology_profile, is_jrf_domain_type,
           is_restricted_jrf_domain_type, has_extension_templates,
           get_base_template, get_extension_templates,
           get_custom_extension_templates, get_server_groups_to_target,
           get_dynamic_cluster_server_groups, requires_rcu,
           get_targeting, get_post_create_domain_script, is_filtered;
         allowed; fail).
  right. intros self e. unfold outcome_of. rewrite get_rcu_schemas_cases. simpl.
  destruct (rcuSchemas (_domain_typedef self)); [done|]. by intros [= <-].
Qed.

(** X20: the exceptions of the public methods.  On an object that was
    constructed and then used in any way, an exception that a public
    method raises is a ConfigError, or the error of [re.match] on a
    pattern that does not compile, or the [KeyError] for [rcuSchemas]; the
    last one only while the object is unresolved and its definition has no
    [rcuSchemas] key. *)
Theorem public_method_exceptions
    (find_typedef_path : string → string) (json_parse : string → ParseOutcome)
    (helper : WebLogicHelper) (TargetingType TopologyProfile : list string)
    (iteritems : gmap string (list string) → list (string * list string))
    (re_match : string → string → option bool) (IS_WINDOWS : bool)
    (self : DomainTypedef) {A} (m : M A) (e : PyException) :
  reachable find_typedef_path json_parse helper TargetingType TopologyProfile
    iteritems re_match IS_WINDOWS self →
  public_method re_match IS_WINDOWS m →
  outcome_of m self = Raise e →
  is_ConfigError e = true
  ∨ (∃ pattern, e = ReError pattern)
  ∨ (e = KeyError "rcuSchemas"
     ∧ _paths_resolved self = false
     ∧ rcuSchemas (_domain_typedef self) = None).
Proof.
  intros Hreach Hm Hraise.
  pose proof (reachable_keys_present _ _ _ _ _ _ _ _ _ Hreach) as Hkeys.
  destruct (public_method_raises_allowed re_match IS_WINDOWS m Hm) as [Hallowed|Hrcu].
  - destruct (Hallowed self Hkeys) as [_ Hcases].
    destruct (Hcases e Hraise) as [He|He]; auto.
  - destruct (Hrcu self e Hraise) as [-> Hnone]. right. right.
    split; [done|]. split; [|done].
    destruct (_paths_resolved self) eqn:Hres; [|done].
    destruct (Hkeys Hres) as (_&_&_&_&_&[schemas Hs]). congruence.
Qed.

Lemma public_method_exceptions_witness :
  is_ConfigError (KeyError "rcuSchemas") = true
  ∨ (∃ pattern, KeyError "rcuSchemas" = ReError pattern)
  ∨ (KeyError "rcuSchemas" = KeyError "rcuSchemas"
     ∧ _paths_resolved (sample_object minimal_definition) = false
     ∧ rcuSchemas (_domain_typedef (sample_object minimal_definition)) = None).
Proof.
  apply (public_method_exceptions
           sample_find_typedef_path (sample_json_parse minimal_definition)
           (sample_helper "12.2.1.3") sample_TargetingType sample_TopologyProfile
           map_to_list sample_re_match false (sample_object minimal_definition)
           get_rcu_schemas (KeyError "rcuSchemas")).
  - apply (reachable_constructed _ _ _ _ _ _ _ _ 1 CREATE_DOMAIN "WLS").
    vm_compute. reflexivity.
  - constructor.
  - reflexivity.
Defined.
